(** * chrome-element-screenshot: region capture and stitching engine

    A shallow embedding of the parts of the extension that plan, capture,
    stitch and classify:

    - [src/types/index.ts]                 the data model;
    - [src/utils/screenshotProcessor.ts]   planner, orchestration, stitcher;
    - [src/utils/errorHandler.ts]          classification and retry policy;
    - the content script                   geometry analysis (scroll extent,
                                           shadow bounds).

    JavaScript numbers are modelled by exact rationals [Q]: every quantity
    here is a pixel count, a scale factor or a delay, and the properties
    below are statements of exact arithmetic.  Equality of numbers is [Qeq]
    ([==]); [Qred] is used only to display results.  [NaN] is [None] where a
    parser can produce it.  Strings are byte strings; the character classes
    (white space, letters) are the ASCII ones. *)

From Stdlib Require Import QArith Qminmax Qabs Qpower ZArith List Bool Arith Lia Lqa.
From Stdlib Require Import Ascii String Sorted.
Import ListNotations.

Local Open Scope string_scope.
Local Open Scope Q_scope.

(** ** Numbers *)

(** [a <= b], [a >= b] and [a > b] of the source, as booleans. *)
Definition leb_num (a b : Q) : bool := Qle_bool a b.
Definition geb_num (a b : Q) : bool := Qle_bool b a.
Definition gtb_num (a b : Q) : bool := negb (Qle_bool a b).

Definition Math_max (a b : Q) : Q := Qmax a b.
Definition Math_min (a b : Q) : Q := Qmin a b.
Definition Math_abs (a : Q) : Q := Qabs a.

(** [Math.pow(b, n)] for a whole exponent. *)
Definition Math_pow (b : Q) (n : Z) : Q := Qpower b n.

(** [v || 0] on the result of a number parser: [NaN] and [0] give [0]. *)
Definition orZero (v : option Q) : Q :=
  match v with Some q => q | None => 0 end.

(** [a || b] on numbers: [b] when [a] is [0]. *)
Definition orElse (a b : Q) : Q := if Qeq_bool a 0 then b else a.

(** ** Strings *)

Definition isWhiteSpace (c : ascii) : bool :=
  let n := nat_of_ascii c in
  ((n =? 9) || (n =? 10) || (n =? 11) || (n =? 12) || (n =? 13) || (n =? 32))%nat.

Definition lowerChar (c : ascii) : ascii :=
  let n := nat_of_ascii c in
  if ((65 <=? n) && (n <=? 90))%nat then ascii_of_nat (n + 32) else c.

(** [String.prototype.toLowerCase]. *)
Fixpoint toLowerCase (s : string) : string :=
  match s with
  | EmptyString => EmptyString
  | String c rest => String (lowerChar c) (toLowerCase rest)
  end.

(** [s.includes(sub)]: [sub] occurs somewhere in [s]. *)
Fixpoint includes (s sub : string) : bool :=
  match s with
  | EmptyString => prefix sub EmptyString
  | String _ rest => prefix sub s || includes rest sub
  end.

(** [s.split(sep)] for a separator of one character. *)
Fixpoint split (sep : ascii) (s : string) : list string :=
  match s with
  | EmptyString => [EmptyString]
  | String c rest =>
      if Ascii.eqb c sep then EmptyString :: split sep rest
      else match split sep rest with
           | piece :: pieces => String c piece :: pieces
           | [] => [String c EmptyString]
           end
  end.

Fixpoint trimStart (s : string) : string :=
  match s with
  | EmptyString => EmptyString
  | String c rest => if isWhiteSpace c then trimStart rest else s
  end.

Definition reverse (s : string) : string :=
  string_of_list_ascii (rev (list_ascii_of_string s)).

Definition trimEnd (s : string) : string := reverse (trimStart (reverse s)).

(** [s.trim()]. *)
Definition trim (s : string) : string := trimEnd (trimStart s).

(** [s.split(/\s+/)]: the pieces between maximal runs of white space.
    [inRun] says that the previous character was white space. *)
Fixpoint splitRuns (inRun : bool) (s : string) : list string :=
  match s with
  | EmptyString => [EmptyString]
  | String c rest =>
      if isWhiteSpace c then
        if inRun then splitRuns true rest
        else EmptyString :: splitRuns true rest
      else match splitRuns false rest with
           | piece :: pieces => String c piece :: pieces
           | [] => [String c EmptyString]
           end
  end.

Definition splitWhitespace (s : string) : list string := splitRuns false s.

(** *** Number parsers *)

Definition digitOf (c : ascii) : option Z :=
  let n := nat_of_ascii c in
  if ((48 <=? n) && (n <=? 57))%nat then Some (Z.of_nat (n - 48)) else None.

(** The longest run of decimal digits at the head of [s]: its value, its
    length and what follows. *)
Fixpoint scanDigits (s : string) (acc : Z) (count : nat) : Z * nat * string :=
  match s with
  | EmptyString => (acc, count, s)
  | String c rest =>
      match digitOf c with
      | Some d => scanDigits rest (10 * acc + d)%Z (S count)
      | None => (acc, count, s)
      end
  end.

Definition scanSign (s : string) : bool * string :=
  match s with
  | String c rest =>
      if Ascii.eqb c "-" then (true, rest)
      else if Ascii.eqb c "+" then (false, rest)
      else (false, s)
  | EmptyString => (false, s)
  end.

(** An exponent part [e±ddd] counts only when it has a digit. *)
Definition scanExponent (s : string) : Z :=
  match s with
  | String c rest =>
      if Ascii.eqb c "e" || Ascii.eqb c "E" then
        let (negative, digits) := scanSign rest in
        let '(v, n, _) := scanDigits digits 0%Z 0%nat in
        if (n =? 0)%nat then 0%Z else if negative then (- v)%Z else v
      else 0%Z
  | EmptyString => 0%Z
  end.

(** [parseFloat(s)]: leading white space, a sign, digits with an optional
    fraction and exponent; whatever follows (a unit such as [px]) is
    ignored; [None] is [NaN].  The literal [Infinity] is not a rational and
    reads as [NaN] here. *)
Definition parseFloat (s : string) : option Q :=
  let (negative, s1) := scanSign (trimStart s) in
  let '(iv, icount, s2) := scanDigits s1 0%Z 0%nat in
  let '(fv, fcount, s3) :=
    match s2 with
    | String c rest =>
        if Ascii.eqb c "." then scanDigits rest 0%Z 0%nat else (0%Z, 0%nat, s2)
    | EmptyString => (0%Z, 0%nat, s2)
    end in
  if (icount + fcount =? 0)%nat then None
  else
    let mantissa := inject_Z iv + inject_Z fv / Qpower 10 (Z.of_nat fcount) in
    let v := mantissa * Qpower 10 (scanExponent s3) in
    Some (if negative then - v else v).

(** [parseFloat(values[i])]: a missing entry is [undefined], which reads as
    [NaN]. *)
Definition parseFloatAt (values : list string) (i : nat) : option Q :=
  match nth_error values i with
  | Some v => parseFloat v
  | None => None
  end.

(** [parseInt(s, 10)]. *)
Definition parseInt (s : string) : option Q :=
  let (negative, s1) := scanSign (trimStart s) in
  let '(v, n, _) := scanDigits s1 0%Z 0%nat in
  if (n =? 0)%nat then None
  else Some (inject_Z (if negative then (- v)%Z else v)).

(** *** More string primitives *)

(** [s.endsWith(suffix)]: some tail of [s] is [suffix]. *)
Fixpoint endsWith (s suffix : string) : bool :=
  String.eqb s suffix
  || match s with
     | EmptyString => false
     | String _ rest => endsWith rest suffix
     end.

(** [s.replace(pattern, replacement)] for a string pattern: the first
    occurrence only.  The replacement is taken literally (the [$] patterns
    of JavaScript are not modelled; none of the replacements of the code
    has a [$]). *)
Fixpoint replaceFirst (pattern replacement s : string) : string :=
  if prefix pattern s then
    replacement
    ++ substring (String.length pattern)
                 (String.length s - String.length pattern) s
  else match s with
       | EmptyString => EmptyString
       | String c rest => String c (replaceFirst pattern replacement rest)
       end.

(** [s.replace(/[...]/g, d)] for a class of single characters. *)
Fixpoint replaceChars (inClass : ascii -> bool) (d : ascii) (s : string)
  : string :=
  match s with
  | EmptyString => EmptyString
  | String c rest =>
      String (if inClass c then d else c) (replaceChars inClass d rest)
  end.

(** [s.slice(0, n)] and [s.slice(0, -n)]. *)
Definition sliceTo (n : nat) (s : string) : string := substring 0 n s.
Definition sliceOff (n : nat) (s : string) : string :=
  substring 0 (String.length s - n) s.

(** ** Data model ([src/types/index.ts]) *)

Record DOMRect := mkRect {
  rect_x : Q; rect_y : Q;
  width : Q; height : Q;
  top : Q; right : Q; bottom : Q; left : Q
}.

Record DOMMatrix := mkMatrix {
  ma : Q; mb : Q; mc : Q; md : Q; me : Q; mf : Q
}.

Record Point := mkPoint { px : Q; py : Q }.

(** [matrix.transformPoint(new DOMPoint(x, y))] for a 2D matrix. *)
Definition transformPoint (m : DOMMatrix) (p : Point) : Point :=
  mkPoint (ma m * px p + mc m * py p + me m)
          (mb m * px p + md m * py p + mf m).

Record ShadowInfo := mkShadowInfo {
  boxShadow : string;
  textShadow : string;
  shadowBounds : DOMRect
}.

Record IframeInfo := mkIframeInfo {
  iframeSelector : string;
  iframeBounds : DOMRect;
  relativePosition : Point
}.

Record ComputedElementStyles := mkStyles {
  style_position : string;
  style_transform : string;
  style_transformOrigin : string;
  style_boxShadow : string;
  style_textShadow : string;
  style_border : string;
  style_borderRadius : string;
  style_overflow : string;
  style_zIndex : string
}.

Record ElementInfo := mkElementInfo {
  selector : string;
  boundingRect : DOMRect;
  isScrollable : bool;
  totalHeight : Q;
  visibleHeight : Q;
  hasTransform : bool;
  transformMatrix : option DOMMatrix;
  hasShadow : bool;
  shadowInfo : option ShadowInfo;
  isInIframe : bool;
  iframeInfo : option IframeInfo;
  isFixed : bool;
  zIndex : Q;
  computedStyles : ComputedElementStyles
}.

Record ScrollPosition := mkScroll {
  scroll_x : Q;
  scroll_y : Q;
  isComplete : bool
}.

Record LongScreenshotSegment := mkSegment {
  dataUrl : string;
  scrollPosition : ScrollPosition;
  segmentIndex : nat;
  elementRect : DOMRect
}.

Inductive ScreenshotError :=
| ELEMENT_NOT_FOUND
| PERMISSION_DENIED
| CAPTURE_FAILED
| PROCESSING_ERROR
| DOWNLOAD_FAILED.

(** A promise settles: it resolves with a value or rejects with an [Error],
    of which the message is kept. *)
Inductive Result (A : Type) :=
| Resolved (a : A)
| Rejected (message : string).
Arguments Resolved {A} a.
Arguments Rejected {A} message.

(** [catch (error) { throw new Error(prefix + error.message) }]. *)
Definition rethrow {A} (prefix : string) (r : Result A) : Result A :=
  match r with
  | Resolved a => Resolved a
  | Rejected m => Rejected (prefix ++ m)
  end.

(** ** Rasters, canvases and the page *)

Record CropArea := mkCrop {
  crop_x : Q; crop_y : Q; crop_width : Q; crop_height : Q
}.

(** A decoded image: what [loadImage] resolves with. *)
Record Image := mkImage { img_width : Q; img_height : Q }.

(** What the code does to a 2D context.  The image of a [drawImage] is
    named by the data URL it was loaded from. *)
Inductive CanvasOp :=
| save
| restore
| setTransform (m : DOMMatrix)
| drawImage (image : string) (sx sy sw sh dx dy dw dh : Q).

(** A canvas at the time of [toDataURL('image/png', 1.0)]: its size and the
    operations it received, which determine the PNG that is returned.  The
    size is kept as it was assigned: the rounding to whole pixels that the
    element applies is not modelled. *)
Record Canvas := mkCanvas {
  canvas_width : Q;
  canvas_height : Q;
  operations : list CanvasOp
}.

(** The page the processor runs in: which data URLs decode, and whether a
    canvas gives a 2D context. *)
Record Host := mkHost {
  loadImage : string -> option Image;
  hasContext2d : bool
}.

(** ** The tab and the external calls *)

(** The two messages the orchestration sends to the content script. *)
Inductive TabMessage :=
| RESET_SCROLL (selector : string)
| SCROLL_TO_POSITION (selector : string) (scrollTop : Q).

(** The target element in the tab, as the content script changes it: its
    scroll position, the largest [scrollTop] the browser allows, and the
    messages the content script has handled, oldest first. *)
Record Tab := mkTab {
  tab_scrollTop : Q;
  tab_scrollLeft : Q;
  tab_maxScrollTop : Q;
  tab_handled : list TabMessage
}.

(** The tab together with the number of calls made so far to each external
    primitive. *)
Record World := mkWorld {
  world_tab : Tab;
  sends : nat;
  captures : nat;
  measures : nat
}.

(** The outcome of the external calls, by call number: whether
    [chrome.tabs.sendMessage] rejects, what [chrome.tabs.captureVisibleTab]
    gives, and what the script injected by [getElementRectAfterScroll]
    measures. *)
Record TabHost := mkTabHost {
  sendMessageOutcome : nat -> option string;
  captureVisibleTab : nat -> Result string;
  measureRect : nat -> Result DOMRect
}.

(** A computation that changes the world and may throw; the world is kept
    when it throws. *)
Definition Action (A : Type) : Type := World -> Result A * World.

Definition ret {A} (a : A) : Action A := fun w => (Resolved a, w).

Definition throw {A} (m : string) : Action A := fun w => (Rejected m, w).

Definition bind {A B} (c : Action A) (k : A -> Action B) : Action B :=
  fun w =>
    match c w with
    | (Resolved a, w') => k a w'
    | (Rejected m, w') => (Rejected m, w')
    end.

Notation "x <- c ;; k" := (bind c (fun x => k))
  (at level 61, c at next level, right associativity).
Notation "c ;;; k" := (bind c (fun _ => k))
  (at level 61, right associativity).

(** [try { c } catch (error) { throw new Error(prefix + error.message) }]. *)
Definition tryRethrow {A} (prefix : string) (c : Action A) : Action A :=
  fun w => let (r, w') := c w in (rethrow prefix r, w').

(** ** Errors and retries: types ([src/utils/errorHandler.ts]) *)

Inductive Severity := low | medium | high | critical.

Record ErrorInfo := mkErrorInfo {
  code : ScreenshotError;
  message : string;
  chineseMessage : string;
  severity : Severity;
  retryable : bool;
  fallbackAvailable : bool;
  userAction : option string
}.

Record RetryConfig := mkRetryConfig {
  maxAttempts : nat;
  delayMs : Q;
  backoffMultiplier : Q;
  retryableErrors : list ScreenshotError
}.

Record FallbackOptions := mkFallbackOptions {
  enableSimpleScreenshot : bool;
  enableManualSave : bool;
  enableQualityReduction : bool;
  enableFormatFallback : bool
}.

(** The same records with every field optional ([Partial<...>]). *)
Record PartialRetryConfig := mkPartialRetryConfig {
  opt_maxAttempts : option nat;
  opt_delayMs : option Q;
  opt_backoffMultiplier : option Q;
  opt_retryableErrors : option (list ScreenshotError)
}.

Record PartialFallbackOptions := mkPartialFallbackOptions {
  opt_enableSimpleScreenshot : option bool;
  opt_enableManualSave : option bool;
  opt_enableQualityReduction : option bool;
  opt_enableFormatFallback : option bool
}.

(** What a call of [handleError] did: how it settled, how many times it
    called the operation, and the delays it waited, in order. *)
Record Run (T : Type) := mkRun {
  outcome : Result T;
  calls : nat;
  delays : list Q
}.
Arguments mkRun {T} outcome calls delays.
Arguments outcome {T} r.
Arguments calls {T} r.
Arguments delays {T} r.

(** How the retry loop is left: by [return result] or by falling out of the
    [while] with [lastError]. *)
Inductive LoopExit (T : Type) :=
| Returned (result : T)
| Exited (lastError : option string).
Arguments Returned {T} result.
Arguments Exited {T} lastError.

(** ** What the content script reads *)

(** What the content script reads from an element: its client rectangle,
    its scroll box, its computed style, and the results of the three
    helpers that are not modelled ([generateElementSelector],
    [new DOMMatrix(transform)], which is [None] when it throws, and
    [detectIframeContext]). *)
Record Element := mkElement {
  el_rect : DOMRect;
  el_scrollHeight : Q;
  el_clientHeight : Q;
  el_overflowY : string;
  el_styles : ComputedElementStyles;
  el_selector : string;
  el_matrix : option DOMMatrix;
  el_iframe : option IframeInfo
}.

Record Window := mkWindow {
  scrollX : Q;
  scrollY : Q;
  innerHeight : Q;
  doc_scrollLeft : Q;
  doc_scrollTop : Q
}.

Record ScrollInfo := mkScrollInfo {
  info_isScrollable : bool;
  info_totalHeight : Q;
  info_visibleHeight : Q
}.

(** ** Encoding: options, clock and canvas ([ScreenshotOptions]) *)

Inductive ImageFormat := png | jpeg.

Definition formatName (format : ImageFormat) : string :=
  match format with png => "png" | jpeg => "jpeg" end.

Record ScreenshotOptions := mkOptions {
  format : ImageFormat;
  quality : Q;
  filename : string
}.

(** [new Date()] as [generateFilename] reads it: the results of
    [toISOString()] and [toTimeString()]. *)
Record Clock := mkClock {
  toISOString : string;
  toTimeString : string
}.

(** What [convertFormat] does to its 2D context. *)
Inductive EncodeOp :=
| setFillStyle (colour : string)
| fillRect (x y w h : Q)
| drawAt (image : string) (dx dy : Q).

(** The canvas of [convertFormat] at the time of [toDataURL(mimeType,
    quality)]. *)
Record Encoded := mkEncoded {
  enc_width : Q;
  enc_height : Q;
  enc_ops : list EncodeOp;
  enc_mimeType : string;
  enc_quality : Q
}.

(** ** The scroll-segment planner *)

(** The two copies of [calculateScrollSegments] (the private static method
    of [ScreenshotProcessor] and the exported function of the content
    script) run the same loop and differ in the step factor only (0.8
    against 0.9): the counter that the content script keeps in
    [segmentIndex] equals [segments.length] at the place it is tested.

    The loop is
<<
    while (currentScrollTop <= totalScrollHeight) {
      segments.push({x: 0, y: currentScrollTop,
                     isComplete: currentScrollTop >= totalScrollHeight});
      if (currentScrollTop >= totalScrollHeight) break;
      currentScrollTop += segmentHeight;
      if (segments.length > 50) break;
    }
>>
    [len] is [segments.length] on entry of an iteration; the result is the
    list of the positions pushed from this iteration on.  [None] means that
    the fuel ran out before the loop ended. *)
Fixpoint scrollLoop (fuel : nat) (totalScrollHeight segmentHeight : Q)
         (len : nat) (currentScrollTop : Q) : option (list ScrollPosition) :=
  match fuel with
  | O => None
  | S fuel' =>
      if leb_num currentScrollTop totalScrollHeight then
        let pushed := mkScroll 0 currentScrollTop
                               (geb_num currentScrollTop totalScrollHeight) in
        if geb_num currentScrollTop totalScrollHeight then Some [pushed]
        else if (50 <? S len)%nat then Some [pushed]
        else option_map (cons pushed)
               (scrollLoop fuel' totalScrollHeight segmentHeight (S len)
                           (currentScrollTop + segmentHeight))
      else Some []
  end.

Definition planWith (fuel : nat) (factor : Q) (elementInfo : ElementInfo)
  : option (list ScrollPosition) :=
  if negb (isScrollable elementInfo)
     || leb_num (totalHeight elementInfo) (visibleHeight elementInfo)
  then Some [mkScroll 0 0 true]
  else
    let segmentHeight := visibleHeight elementInfo * factor in
    let totalScrollHeight :=
      totalHeight elementInfo - visibleHeight elementInfo in
    scrollLoop fuel totalScrollHeight segmentHeight 0 0.

(** The loop runs at most 51 times; [loopFuel] is more than enough. *)
Definition loopFuel : nat := 64.

(** ** The content script *)

Module ContentScript.

(** [calculateScrollSegments]: 90% of the visible height per step. *)
Definition calculateScrollSegments (elementInfo : ElementInfo)
  : option (list ScrollPosition) :=
  planWith loopFuel (9 # 10) elementInfo.

(** [resetElementScroll]: [scrollTop] and [scrollLeft] are set to 0. *)
Definition resetElementScroll (tab : Tab) : Tab :=
  mkTab 0 0 (tab_maxScrollTop tab) (tab_handled tab).

(** [scrollElementToPosition]: [scrollTop] is assigned, which the browser
    keeps within the scrollable range, and the position reached is
    reported. *)
Definition scrollElementToPosition (tab : Tab) (scrollTop : Q)
  : Tab * ScrollPosition :=
  let currentScrollTop :=
    Math_max 0 (Math_min scrollTop (tab_maxScrollTop tab)) in
  (mkTab currentScrollTop (tab_scrollLeft tab) (tab_maxScrollTop tab)
         (tab_handled tab),
   mkScroll (tab_scrollLeft tab) currentScrollTop
            (geb_num currentScrollTop (tab_maxScrollTop tab))).

(** The handlers registered for the two scroll messages; the tab records
    what it has handled. *)
Definition handleMessage (tab : Tab) (msg : TabMessage) : Tab :=
  let tab' :=
    match msg with
    | RESET_SCROLL _ => resetElementScroll tab
    | SCROLL_TO_POSITION _ scrollTop =>
        fst (scrollElementToPosition tab scrollTop)
    end in
  mkTab (tab_scrollTop tab') (tab_scrollLeft tab') (tab_maxScrollTop tab')
        (tab_handled tab' ++ [msg])%list.

(** [window.scrollX || document.documentElement.scrollLeft]. *)
Definition pageScrollX (w : Window) : Q := orElse (scrollX w) (doc_scrollLeft w).
Definition pageScrollY (w : Window) : Q := orElse (scrollY w) (doc_scrollTop w).

Definition detectScrollableElement (w : Window) (element : Element)
  : ScrollInfo :=
  let rect := el_rect element in
  let computedStyle := el_styles element in
  let hasVerticalOverflow :=
    String.eqb (el_overflowY element) "scroll"
    || String.eqb (el_overflowY element) "auto"
    || String.eqb (style_overflow computedStyle) "scroll"
    || String.eqb (style_overflow computedStyle) "auto" in
  let scrollHeight := el_scrollHeight element in
  let clientHeight := el_clientHeight element in
  let visibleHeight := height rect in
  let isScrollable := hasVerticalOverflow && gtb_num scrollHeight clientHeight in
  let exceedsViewport :=
    gtb_num scrollHeight (innerHeight w * (15 # 10)) in
  let isLongContent := isScrollable || exceedsViewport in
  mkScrollInfo isLongContent (Math_max scrollHeight visibleHeight) visibleHeight.

(** The body of the loop of [parseShadowExtent] for one shadow: [None] when
    the shadow has fewer than two values and is skipped. *)
Definition shadowExtent (shadow : string) : option Q :=
  let values := splitWhitespace (trim shadow) in
  if (2 <=? List.length values)%nat then
    let offsetX := Math_abs (orZero (parseFloatAt values 0)) in
    let offsetY := Math_abs (orZero (parseFloatAt values 1)) in
    let blurRadius := Math_abs (orZero (parseFloatAt values 2)) in
    let spreadRadius := Math_abs (orZero (parseFloatAt values 3)) in
    Some (Math_max offsetX offsetY + blurRadius + spreadRadius)
  else None.

(** [parseShadowExtent]: nothing in the [try] block throws on a string, so
    that the fallback of the [catch] is never taken. *)
Definition parseShadowExtent (shadowValue : string) : Q :=
  fold_left
    (fun maxExtent shadow =>
       match shadowExtent shadow with
       | Some extent => Math_max maxExtent extent
       | None => maxExtent
       end)
    (split "," shadowValue) 0.

(** [s && s !== 'none']. *)
Definition isShadowValue (s : string) : bool :=
  negb (String.eqb s "") && negb (String.eqb s "none").

(** The [maxShadowExtent] of [calculateShadowBounds]. *)
Definition maxShadowExtent (boxShadow textShadow : string) : Q :=
  let m0 := 0 in
  let m1 :=
    if isShadowValue boxShadow
    then Math_max m0 (parseShadowExtent boxShadow) else m0 in
  if isShadowValue textShadow
  then Math_max m1 (parseShadowExtent textShadow) else m1.

Definition calculateShadowBounds (w : Window) (element : Element)
           (boxShadow textShadow : string) : ShadowInfo :=
  let rect := el_rect element in
  let scrollX := pageScrollX w in
  let scrollY := pageScrollY w in
  let maxShadowExtent := maxShadowExtent boxShadow textShadow in
  mkShadowInfo boxShadow textShadow
    (mkRect (left rect + scrollX - maxShadowExtent)
            (top rect + scrollY - maxShadowExtent)
            (width rect + maxShadowExtent * 2)
            (height rect + maxShadowExtent * 2)
            (top rect + scrollY - maxShadowExtent)
            (right rect + scrollX + maxShadowExtent)
            (bottom rect + scrollY + maxShadowExtent)
            (left rect + scrollX - maxShadowExtent)).

(** The part of [analyzeComplexElement] that fills [ElementInfo]. *)
Definition analyzeHasTransform (element : Element) : bool :=
  let transform := style_transform (el_styles element) in
  negb (String.eqb transform "") && negb (String.eqb transform "none").

Definition analyzeHasShadow (element : Element) : bool :=
  isShadowValue (style_boxShadow (el_styles element))
  || isShadowValue (style_textShadow (el_styles element)).

Definition analyzeZIndex (element : Element) : Q :=
  let zIndexStr := style_zIndex (el_styles element) in
  if String.eqb zIndexStr "auto" then 0 else orZero (parseInt zIndexStr).

Definition getElementInfo (w : Window) (element : Element) : ElementInfo :=
  let rect := el_rect element in
  let scrollX := pageScrollX w in
  let scrollY := pageScrollY w in
  let scrollInfo := detectScrollableElement w element in
  let styles := el_styles element in
  let hasTransform := analyzeHasTransform element in
  let hasShadow := analyzeHasShadow element in
  let position := style_position styles in
  mkElementInfo
    (el_selector element)
    (mkRect (left rect + scrollX) (top rect + scrollY)
            (width rect) (height rect)
            (top rect + scrollY) (right rect + scrollX)
            (bottom rect + scrollY) (left rect + scrollX))
    (info_isScrollable scrollInfo)
    (info_totalHeight scrollInfo)
    (info_visibleHeight scrollInfo)
    hasTransform
    (if hasTransform then el_matrix element else None)
    hasShadow
    (if hasShadow
     then Some (calculateShadowBounds w element (style_boxShadow styles)
                                      (style_textShadow styles))
     else None)
    (match el_iframe element with Some _ => true | None => false end)
    (el_iframe element)
    (String.eqb position "fixed" || String.eqb position "sticky")
    (analyzeZIndex element)
    styles.

(** [calculateTransformedBounds] of the content script: the bounding box
    of the four transformed corners. *)
Definition calculateTransformedBounds (bounds : DOMRect) (matrix : DOMMatrix)
  : DOMRect :=
  let c1 := transformPoint matrix (mkPoint (left bounds) (top bounds)) in
  let c2 := transformPoint matrix (mkPoint (right bounds) (top bounds)) in
  let c3 := transformPoint matrix (mkPoint (right bounds) (bottom bounds)) in
  let c4 := transformPoint matrix (mkPoint (left bounds) (bottom bounds)) in
  let minX :=
    Math_min (Math_min (px c1) (px c2)) (Math_min (px c3) (px c4)) in
  let maxX :=
    Math_max (Math_max (px c1) (px c2)) (Math_max (px c3) (px c4)) in
  let minY :=
    Math_min (Math_min (py c1) (py c2)) (Math_min (py c3) (py c4)) in
  let maxY :=
    Math_max (Math_max (py c1) (py c2)) (Math_max (py c3) (py c4)) in
  mkRect minX minY (maxX - minX) (maxY - minY) minY maxX maxY minX.

(** [getComplexElementBounds]: the bounds of the element with its shadows
    and its transform. *)
Definition getComplexElementBounds (w : Window) (element : Element) : DOMRect :=
  let elementInfo := getElementInfo w element in
  let bounds0 := boundingRect elementInfo in
  let bounds1 :=
    match shadowInfo elementInfo with
    | Some info => if hasShadow elementInfo then shadowBounds info else bounds0
    | None => bounds0
    end in
  match transformMatrix elementInfo with
  | Some m =>
      if hasTransform elementInfo then calculateTransformedBounds bounds1 m
      else bounds1
  | None => bounds1
  end.

End ContentScript.

(** ** The extension API *)

(** [await chrome.tabs.sendMessage(tabId, msg)]: when the call does not
    reject the content script has handled the message; the response is not
    looked at. *)
Definition sendMessage (host : TabHost) (msg : TabMessage) : Action unit :=
  fun w =>
    match sendMessageOutcome host (sends w) with
    | Some m =>
        (Rejected m,
         mkWorld (world_tab w) (S (sends w)) (captures w) (measures w))
    | None =>
        (Resolved tt,
         mkWorld (ContentScript.handleMessage (world_tab w) msg) (S (sends w))
                 (captures w) (measures w))
    end.

(** ** [ScreenshotProcessor] ([src/utils/screenshotProcessor.ts]) *)

Module ScreenshotProcessor.

(** [calculateScrollSegments]: 80% of the visible height per step. *)
Definition calculateScrollSegments (elementInfo : ElementInfo)
  : option (list ScrollPosition) :=
  planWith loopFuel (8 # 10) elementInfo.

Definition adjustCropArea (cropArea : CropArea) (imageWidth imageHeight : Q)
  : CropArea :=
  let x := Math_max 0 (Math_min (crop_x cropArea) (imageWidth - 1)) in
  let y := Math_max 0 (Math_min (crop_y cropArea) (imageHeight - 1)) in
  let w := Math_min (crop_width cropArea) (imageWidth - x) in
  let h := Math_min (crop_height cropArea) (imageHeight - y) in
  mkCrop x y (Math_max 1 w) (Math_max 1 h).

(** [Math.min(...xs)] and [Math.max(...xs)] on the four corners. *)
Definition min4 (a b c d : Q) : Q := Math_min (Math_min a b) (Math_min c d).
Definition max4 (a b c d : Q) : Q := Math_max (Math_max a b) (Math_max c d).

Definition calculateTransformedBounds (bounds : DOMRect) (matrix : DOMMatrix)
  : DOMRect :=
  let c1 := transformPoint matrix (mkPoint (left bounds) (top bounds)) in
  let c2 := transformPoint matrix (mkPoint (right bounds) (top bounds)) in
  let c3 := transformPoint matrix (mkPoint (right bounds) (bottom bounds)) in
  let c4 := transformPoint matrix (mkPoint (left bounds) (bottom bounds)) in
  let minX := min4 (px c1) (px c2) (px c3) (px c4) in
  let maxX := max4 (px c1) (px c2) (px c3) (px c4) in
  let minY := min4 (py c1) (py c2) (py c3) (py c4) in
  let maxY := max4 (py c1) (py c2) (py c3) (py c4) in
  mkRect minX minY (maxX - minX) (maxY - minY) minY maxX maxY minX.

Definition calculateComplexElementCropArea (elementInfo : ElementInfo)
           (devicePixelRatio : Q) : CropArea :=
  let bounds0 := boundingRect elementInfo in
  let bounds1 :=
    match shadowInfo elementInfo with
    | Some info => if hasShadow elementInfo then shadowBounds info else bounds0
    | None => bounds0
    end in
  let bounds2 :=
    match iframeInfo elementInfo with
    | Some info =>
        if isInIframe elementInfo then
          let ib := iframeBounds info in
          let rel := relativePosition info in
          mkRect (rect_x ib + px rel) (rect_y ib + py rel)
                 (width bounds1) (height bounds1)
                 (top ib + py rel)
                 (left ib + px rel + width bounds1)
                 (top ib + py rel + height bounds1)
                 (left ib + px rel)
        else bounds1
    | None => bounds1
    end in
  let bounds3 :=
    match transformMatrix elementInfo with
    | Some m =>
        if hasTransform elementInfo then calculateTransformedBounds bounds2 m
        else bounds2
    | None => bounds2
    end in
  mkCrop (left bounds3 * devicePixelRatio) (top bounds3 * devicePixelRatio)
         (width bounds3 * devicePixelRatio) (height bounds3 * devicePixelRatio).

Definition drawCrop (image : string) (cropArea : CropArea) : CanvasOp :=
  drawImage image
            (crop_x cropArea) (crop_y cropArea)
            (crop_width cropArea) (crop_height cropArea)
            0 0 (crop_width cropArea) (crop_height cropArea).

Definition handleFixedPositionElement (image : string) (cropArea : CropArea)
  : list CanvasOp := [drawCrop image cropArea].

Definition handleTransformedElement (image : string)
           (elementInfo : ElementInfo) (cropArea : CropArea) : list CanvasOp :=
  match transformMatrix elementInfo with
  | Some m => [setTransform m; drawCrop image cropArea]
  | None => [drawCrop image cropArea]
  end.

Definition renderComplexElement (image : string) (elementInfo : ElementInfo)
           (cropArea : CropArea) : list CanvasOp :=
  [save]
  ++ (if isFixed elementInfo then handleFixedPositionElement image cropArea
      else if hasTransform elementInfo
           then handleTransformedElement image elementInfo cropArea
           else [drawCrop image cropArea])
  ++ [restore].

Definition cropToElement (host : Host) (screenshotDataUrl : string)
           (elementInfo : ElementInfo) (devicePixelRatio : Q) : Result Canvas :=
  rethrow "Screenshot cropping failed: "
    (if negb (hasContext2d host) then Rejected "Failed to get canvas context"
     else
       match loadImage host screenshotDataUrl with
       | None => Rejected "Failed to load image"
       | Some img =>
           let cropArea :=
             calculateComplexElementCropArea elementInfo devicePixelRatio in
           let adjustedCropArea :=
             adjustCropArea cropArea (img_width img) (img_height img) in
           let ops :=
             if hasTransform elementInfo || hasShadow elementInfo
                || isFixed elementInfo
             then renderComplexElement screenshotDataUrl elementInfo
                                       adjustedCropArea
             else [drawCrop screenshotDataUrl adjustedCropArea] in
           Resolved (mkCanvas (crop_width adjustedCropArea)
                              (crop_height adjustedCropArea) ops)
       end).

(** [None] is the [TypeError] of reading a segment that is not there. *)
Definition calculateOverlapHeight (segments : list LongScreenshotSegment)
           (currentIndex : nat) (devicePixelRatio : Q) : option Q :=
  if (currentIndex =? 0)%nat then Some 0
  else
    match nth_error segments currentIndex,
          nth_error segments (currentIndex - 1) with
    | Some currentSegment, Some previousSegment =>
        let scrollDiff := scroll_y (scrollPosition currentSegment)
                          - scroll_y (scrollPosition previousSegment) in
        let segmentHeight := height (elementRect currentSegment) in
        let overlapHeight := Math_max 0 (segmentHeight - scrollDiff) in
        Some (overlapHeight * devicePixelRatio)
    | _, _ => None
    end.

(** The crop of segment [i] before the overlap is taken off. *)
Definition segmentCrop (segment : LongScreenshotSegment) (img : Image)
           (elementWidth devicePixelRatio : Q) : CropArea :=
  adjustCropArea
    (mkCrop (left (elementRect segment) * devicePixelRatio)
            (top (elementRect segment) * devicePixelRatio)
            elementWidth
            (height (elementRect segment) * devicePixelRatio))
    (img_width img) (img_height img).

(** One iteration of the stitching loop, for segment [i] with the write
    offset at [currentY]: the [drawImage] it issues and the height it adds
    to the write offset. *)
Definition stitchSegment (host : Host) (segments : list LongScreenshotSegment)
           (elementWidth devicePixelRatio : Q)
           (i : nat) (segment : LongScreenshotSegment) (currentY : Q)
  : Result (CanvasOp * Q) :=
  match loadImage host (dataUrl segment) with
  | None => Rejected "Failed to load image"
  | Some img =>
      let adjustedCropArea :=
        segmentCrop segment img elementWidth devicePixelRatio in
      let segmentHeight := crop_height adjustedCropArea in
      if (0 <? i)%nat then
        match calculateOverlapHeight segments i devicePixelRatio with
        | None => Rejected "Cannot read properties of undefined"
        | Some overlapHeight =>
            let segmentHeight' := segmentHeight - overlapHeight in
            Resolved
              (drawImage (dataUrl segment)
                         (crop_x adjustedCropArea)
                         (crop_y adjustedCropArea + overlapHeight)
                         (crop_width adjustedCropArea) segmentHeight'
                         0 currentY elementWidth segmentHeight',
               segmentHeight')
        end
      else
        Resolved
          (drawImage (dataUrl segment)
                     (crop_x adjustedCropArea) (crop_y adjustedCropArea)
                     (crop_width adjustedCropArea) segmentHeight
                     0 currentY elementWidth segmentHeight,
           segmentHeight)
  end.

(** The loop [for (i = 0; i < segments.length; i++)], from index [i] on;
    [todo] is [segments.slice(i)].  It gives the operations issued and the
    final [currentY]. *)
Fixpoint stitchLoop (host : Host) (segments : list LongScreenshotSegment)
         (elementWidth devicePixelRatio : Q)
         (i : nat) (todo : list LongScreenshotSegment) (currentY : Q)
  : Result (list CanvasOp * Q) :=
  match todo with
  | [] => Resolved ([], currentY)
  | segment :: rest =>
      match stitchSegment host segments elementWidth devicePixelRatio
                          i segment currentY with
      | Rejected m => Rejected m
      | Resolved (op, segmentHeight) =>
          match stitchLoop host segments elementWidth devicePixelRatio
                           (S i) rest (currentY + segmentHeight) with
          | Rejected m => Rejected m
          | Resolved (ops, finalY) => Resolved (op :: ops, finalY)
          end
      end
  end.

(** [stitchScreenshotSegments].  With one segment the promise of
    [cropToElement] is returned without [await], so that its rejection is
    not seen by the [catch] of this function. *)
Definition stitchScreenshotSegments (host : Host)
           (segments : list LongScreenshotSegment)
           (elementInfo : ElementInfo) (devicePixelRatio : Q) : Result Canvas :=
  match segments with
  | [] => Rejected "Screenshot stitching failed: No segments to stitch"
  | [segment] =>
      cropToElement host (dataUrl segment) elementInfo devicePixelRatio
  | _ =>
      rethrow "Screenshot stitching failed: "
        (if negb (hasContext2d host) then Rejected "Failed to get canvas context"
         else
           let elementWidth :=
             width (boundingRect elementInfo) * devicePixelRatio in
           let totalHeight := totalHeight elementInfo * devicePixelRatio in
           match stitchLoop host segments elementWidth devicePixelRatio
                            0 segments 0 with
           | Rejected m => Rejected m
           | Resolved (ops, _) =>
               Resolved (mkCanvas elementWidth totalHeight ops)
           end)
  end.

(** [captureFullPage]: an empty data URL is an error, and every error is
    thrown again with a prefix. *)
Definition captureFullPage (host : TabHost) : Action string :=
  fun w =>
    (rethrow "Screenshot capture failed: "
       match captureVisibleTab host (captures w) with
       | Resolved url =>
           if String.eqb url "" then Rejected "Failed to capture screenshot"
           else Resolved url
       | Rejected m => Rejected m
       end,
     mkWorld (world_tab w) (sends w) (S (captures w)) (measures w)).

(** [getElementRectAfterScroll]: errors are thrown again as they are. *)
Definition getElementRectAfterScroll (host : TabHost) : Action DOMRect :=
  fun w =>
    (measureRect host (measures w),
     mkWorld (world_tab w) (sends w) (captures w) (S (measures w))).

(** The body of the capture loop from index [i] on. *)
Fixpoint captureSegments (host : TabHost) (selector : string) (i : nat)
         (scrollSegments : list ScrollPosition)
  : Action (list LongScreenshotSegment) :=
  match scrollSegments with
  | [] => ret []
  | scrollPos :: rest =>
      sendMessage host (SCROLL_TO_POSITION selector (scroll_y scrollPos)) ;;;
      screenshotDataUrl <- captureFullPage host ;;
      currentElementRect <- getElementRectAfterScroll host ;;
      segments <- captureSegments host selector (S i) rest ;;
      ret (mkSegment screenshotDataUrl scrollPos i currentElementRect
             :: segments)
  end.

(** [captureLongScreenshot]: one [try] around the whole body, whose [catch]
    throws a new error; there is no [finally].  The planner always returns
    (see [planWith_returns]), so that the first branch is never taken. *)
Definition captureLongScreenshot (host : TabHost) (elementInfo : ElementInfo)
  : Action (list LongScreenshotSegment * Q) :=
  tryRethrow "Long screenshot capture failed: "
    (match calculateScrollSegments elementInfo with
     | None => throw "planner out of fuel"
     | Some scrollSegments =>
         sendMessage host (RESET_SCROLL (selector elementInfo)) ;;;
         segments <- captureSegments host (selector elementInfo) 0
                                     scrollSegments ;;
         sendMessage host (RESET_SCROLL (selector elementInfo)) ;;;
         ret (segments, totalHeight elementInfo)
     end).

(** [generateFilename]: the placeholders are replaced once each, from the
    clock, and the extension is added when the name does not end with
    it. *)
Definition extensionOf (format : ImageFormat) : string :=
  match format with jpeg => "jpg" | png => "png" end.

Definition isColonOrDot (c : ascii) : bool :=
  Ascii.eqb c ":" || Ascii.eqb c ".".

Definition isColon (c : ascii) : bool := Ascii.eqb c ":".

Definition substitutePlaceholders (now : Clock) (template : string)
           (format : ImageFormat) : string :=
  let timestamp :=
    sliceOff 5 (replaceChars isColonOrDot "-" (toISOString now)) in
  let dateStr := sliceTo 10 (toISOString now) in
  let timeStr := replaceChars isColon "-" (sliceTo 8 (toTimeString now)) in
  replaceFirst "{format}" (formatName format)
    (replaceFirst "{time}" timeStr
       (replaceFirst "{date}" dateStr
          (replaceFirst "{timestamp}" timestamp template))).

Definition generateFilename (now : Clock) (template : string)
           (format : ImageFormat) : string :=
  let filename := substitutePlaceholders now template format in
  let extension := extensionOf format in
  if negb (endsWith filename ("." ++ extension))
  then filename ++ "." ++ extension
  else filename.

(** [convertFormat]: the image is drawn on a canvas of its size, over a
    white fill for JPEG, and the canvas is encoded. *)
Definition convertFormat (host : Host) (dataUrl : string)
           (options : ScreenshotOptions) : Result Encoded :=
  if negb (hasContext2d host) then Rejected "Failed to get canvas context"
  else
    match loadImage host dataUrl with
    | None =>
        Rejected
          "Format conversion failed: Failed to load image for format conversion"
    | Some img =>
        let fill :=
          match format options with
          | jpeg => [setFillStyle "#FFFFFF";
                     fillRect 0 0 (img_width img) (img_height img)]
          | png => []
          end in
        let mimeType :=
          match format options with
          | jpeg => "image/jpeg"
          | png => "image/png"
          end in
        Resolved (mkEncoded (img_width img) (img_height img)
                            (fill ++ [drawAt dataUrl 0 0])%list
                            mimeType (quality options))
    end.

End ScreenshotProcessor.

(** ** [ErrorHandler] ([src/utils/errorHandler.ts]) *)

Module ErrorHandler.

Definition DEFAULT_RETRY_CONFIG : RetryConfig :=
  mkRetryConfig 3 1000 2 [CAPTURE_FAILED; PROCESSING_ERROR; DOWNLOAD_FAILED].

Definition DEFAULT_FALLBACK_OPTIONS : FallbackOptions :=
  mkFallbackOptions true true true true.

Definition ERROR_DEFINITIONS (error : ScreenshotError) : ErrorInfo :=
  match error with
  | ELEMENT_NOT_FOUND =>
      mkErrorInfo ELEMENT_NOT_FOUND "Element not found on the page"
        "頁面上找不到指定的元素" medium false false
        (Some "請重新選擇要截圖的元素")
  | PERMISSION_DENIED =>
      mkErrorInfo PERMISSION_DENIED "Permission denied for screenshot capture"
        "截圖權限被拒絕" high false false
        (Some "請檢查瀏覽器權限設置並重新載入頁面")
  | CAPTURE_FAILED =>
      mkErrorInfo CAPTURE_FAILED "Failed to capture screenshot"
        "截圖捕獲失敗" medium true true
        (Some "正在嘗試重新截圖...")
  | PROCESSING_ERROR =>
      mkErrorInfo PROCESSING_ERROR "Error processing screenshot"
        "截圖處理過程中發生錯誤" medium true true
        (Some "正在嘗試使用簡化模式...")
  | DOWNLOAD_FAILED =>
      mkErrorInfo DOWNLOAD_FAILED "Failed to download screenshot"
        "截圖下載失敗" low true true
        (Some "正在準備手動保存選項...")
  end.

Definition createErrorInfo (error : ScreenshotError)
           (customMessage : option string) : ErrorInfo :=
  let baseInfo := ERROR_DEFINITIONS error in
  mkErrorInfo (code baseInfo)
    (match customMessage with
     | Some m => if String.eqb m "" then message baseInfo else m
     | None => message baseInfo
     end)
    (chineseMessage baseInfo) (severity baseInfo) (retryable baseInfo)
    (fallbackAvailable baseInfo) (userAction baseInfo).

(** [classifyError(error)], on [error.message]. *)
Definition classifyError (errorMessage : string) : ScreenshotError :=
  let message := toLowerCase errorMessage in
  if includes message "element not found" || includes message "selector"
  then ELEMENT_NOT_FOUND
  else if includes message "permission" || includes message "denied"
          || includes message "unauthorized"
  then PERMISSION_DENIED
  else if includes message "download" || includes message "save"
  then DOWNLOAD_FAILED
  else if includes message "capture" || includes message "screenshot"
  then CAPTURE_FAILED
  else PROCESSING_ERROR.

(** [{ ...DEFAULT_RETRY_CONFIG, ...retryConfig }]. *)
Definition mergeRetryConfig (retryConfig : PartialRetryConfig) : RetryConfig :=
  let pick {A} (o : option A) (d : A) := match o with Some v => v | None => d end in
  mkRetryConfig
    (pick (opt_maxAttempts retryConfig) (maxAttempts DEFAULT_RETRY_CONFIG))
    (pick (opt_delayMs retryConfig) (delayMs DEFAULT_RETRY_CONFIG))
    (pick (opt_backoffMultiplier retryConfig)
          (backoffMultiplier DEFAULT_RETRY_CONFIG))
    (pick (opt_retryableErrors retryConfig)
          (retryableErrors DEFAULT_RETRY_CONFIG)).

Definition mergeFallbackOptions (fallbackOptions : PartialFallbackOptions)
  : FallbackOptions :=
  let pick (o : option bool) (d : bool) := match o with Some v => v | None => d end in
  mkFallbackOptions
    (pick (opt_enableSimpleScreenshot fallbackOptions) true)
    (pick (opt_enableManualSave fallbackOptions) true)
    (pick (opt_enableQualityReduction fallbackOptions) true)
    (pick (opt_enableFormatFallback fallbackOptions) true).

(** The fallback strategies: a name and what running it gives.  Each of
    them throws. *)
Definition getFallbackStrategies {T} (errorCode : ScreenshotError)
           (fallbackOptions : FallbackOptions) : list (string * Result T) :=
  match errorCode with
  | CAPTURE_FAILED =>
      if enableSimpleScreenshot fallbackOptions
      then [("Simple Screenshot Mode",
             Rejected "Simple screenshot fallback not implemented yet")]
      else []
  | PROCESSING_ERROR =>
      ((if enableQualityReduction fallbackOptions
        then [("Reduced Quality Mode",
               Rejected "Quality reduction fallback not implemented yet")]
        else [])
       ++
       (if enableFormatFallback fallbackOptions
        then [("Format Fallback",
               Rejected "Format fallback not implemented yet")]
        else []))%list
  | DOWNLOAD_FAILED =>
      if enableManualSave fallbackOptions
      then [("Manual Save Option",
             Rejected "Manual save fallback not implemented yet")]
      else []
  | _ => []
  end.

Fixpoint tryStrategies {T} (strategies : list (string * Result T))
         (errorInfo : ErrorInfo) : Result T :=
  match strategies with
  | [] => Rejected ("All fallback strategies failed for error: "
                    ++ chineseMessage errorInfo)
  | (_, Resolved v) :: _ => Resolved v
  | (_, Rejected _) :: rest => tryStrategies rest errorInfo
  end.

Definition attemptFallback {T} (errorInfo : ErrorInfo)
           (fallbackOptions : FallbackOptions) : Result T :=
  tryStrategies (getFallbackStrategies (code errorInfo) fallbackOptions)
                errorInfo.

(** The [while (attempt < config.maxAttempts)] loop.  [operation k] is what
    the [k]-th call of the operation (from 0) settles with; [remaining] is
    [config.maxAttempts - attempt], so that the guard of the loop holds
    when it is not [0].  The result is how the loop was left, the value of
    [attempt] then (the number of calls), and the delays waited. *)
Fixpoint retryLoop {T} (config : RetryConfig) (operation : nat -> Result T)
         (remaining attempt : nat) (lastError : option string)
  : LoopExit T * nat * list Q :=
  match remaining with
  | O => (Exited lastError, attempt, [])
  | S remaining' =>
      let attempt' := S attempt in
      match operation attempt with
      | Resolved result => (Returned result, attempt', [])
      | Rejected m =>
          let screenshotError := classifyError m in
          let errorInfo := createErrorInfo screenshotError None in
          if negb (retryable errorInfo)
             || (maxAttempts config <=? attempt')%nat
          then (Exited (Some m), attempt', [])
          else
            let delay :=
              delayMs config
              * Math_pow (backoffMultiplier config) (Z.of_nat attempt' - 1) in
            let '(exit, n, waited) :=
              retryLoop config operation remaining' attempt' (Some m) in
            (exit, n, delay :: waited)
      end
  end.

Definition handleError {T} (operation : nat -> Result T)
           (errorContext : string)
           (retryConfig : PartialRetryConfig)
           (fallbackOptions : PartialFallbackOptions) : Run T :=
  let config := mergeRetryConfig retryConfig in
  let fallbacks := mergeFallbackOptions fallbackOptions in
  let '(exit, n, waited) :=
    retryLoop config operation (maxAttempts config) 0 None in
  match exit with
  | Returned result => mkRun (Resolved result) n waited
  | Exited (Some lastError) =>
      let errorInfo := createErrorInfo (classifyError lastError) None in
      if fallbackAvailable errorInfo
      then mkRun (attemptFallback errorInfo fallbacks) n waited
      else mkRun (Rejected (chineseMessage errorInfo)) n waited
  | Exited None =>
      mkRun (Rejected (errorContext ++ " - Unknown error occurred")) n waited
  end.

(** [createUserMessage]. *)
Definition newline : string := String (ascii_of_nat 10) EmptyString.

Definition createUserMessage (errorInfo : ErrorInfo) : string :=
  let message := chineseMessage errorInfo in
  let message :=
    match userAction errorInfo with
    | Some action =>
        if String.eqb action "" then message else message ++ newline ++ action
    | None => message
    end in
  if retryable errorInfo then message ++ newline ++ "系統將自動重試..."
  else message.

Definition isCritical (s : Severity) : bool :=
  match s with critical => true | _ => false end.

Definition isDownloadFailed (e : ScreenshotError) : bool :=
  match e with DOWNLOAD_FAILED => true | _ => false end.

(** [shouldOfferManualSave]. *)
Definition shouldOfferManualSave (errorInfo : ErrorInfo) : bool :=
  isDownloadFailed (code errorInfo)
  || (fallbackAvailable errorInfo && negb (isCritical (severity errorInfo))).

End ErrorHandler.

(** ** The background script ([src/background/background.ts]) *)

Module Background.

(** The choice of the [ELEMENT_SELECTED] handler between the long capture
    and the plain one. *)
Definition isLongScreenshot (elementInfo : ElementInfo) : bool :=
  isScrollable elementInfo
  && gtb_num (totalHeight elementInfo)
             (visibleHeight elementInfo * (15 # 10)).

(** What the [catch] at the end of [captureElementScreenshot] and of
    [captureLongScreenshot] throws for an error with the given message. *)
Definition finalUserMessage (errorMessage : string) : string :=
  let screenshotError := ErrorHandler.classifyError errorMessage in
  let errorInfo := ErrorHandler.createErrorInfo screenshotError None in
  ErrorHandler.createUserMessage errorInfo.

End Background.

(** ** Sample data *)

Definition noStyles : ComputedElementStyles :=
  mkStyles "static" "none" "center" "none" "none" "none" "0" "visible" "auto".

(** An element with no transform, shadow, iframe or fixed positioning. *)
Definition plainElement (sel : string) (r : DOMRect) (scrollable : bool)
           (total visible : Q) : ElementInfo :=
  mkElementInfo sel r scrollable total visible
                false None false None false None false 0 noStyles.

Definition rectOf (l t w h : Q) : DOMRect :=
  mkRect l t w h t (l + w) (t + h) l.

(** A planned list with the numbers in lowest terms. *)
Definition showPlan (l : list ScrollPosition) : list (Q * bool) :=
  map (fun p => (Qred (scroll_y p), isComplete p)) l.

Definition showRect (r : DOMRect) : list Q :=
  map Qred [left r; top r; width r; height r; right r; bottom r].

(** The element of the long-screenshot tests: 2400 pixels of content behind
    a 600 pixel window. *)
Definition longElement : ElementInfo :=
  plainElement "#long" (rectOf 0 0 800 600) true 2400 600.



(** *** Reading a canvas *)

(** The destination offset and height, and the source offset and height,
    of a [drawImage]. *)
Definition op_dy (op : CanvasOp) : Q :=
  match op with drawImage _ _ _ _ _ _ dy _ _ => dy | _ => 0 end.
Definition op_dh (op : CanvasOp) : Q :=
  match op with drawImage _ _ _ _ _ _ _ _ dh => dh | _ => 0 end.
Definition op_sy (op : CanvasOp) : Q :=
  match op with drawImage _ _ sy _ _ _ _ _ _ => sy | _ => 0 end.
Definition op_sh (op : CanvasOp) : Q :=
  match op with drawImage _ _ _ _ sh _ _ _ _ => sh | _ => 0 end.
Definition op_image (op : CanvasOp) : option string :=
  match op with drawImage image _ _ _ _ _ _ _ _ => Some image | _ => None end.


(** The heights that the operations of a stitched canvas add, in order. *)
Definition drawnHeights (ops : list CanvasOp) : list Q := map op_dh ops.

(** The overlap taken off segment [i]: nothing for the first one. *)
Definition overlapOf (segments : list LongScreenshotSegment) (i : nat)
           (devicePixelRatio : Q) : Q :=
  orZero (ScreenshotProcessor.calculateOverlapHeight segments i devicePixelRatio).

(** *** Stitching fixtures *)

(** A page where every data URL decodes to an image of the given size. *)
Definition uniformHost (w h : Q) : Host :=
  mkHost (fun _ => Some (mkImage w h)) true.

Definition segmentAt (url : string) (i : nat) (y : Q) (final : bool)
           (r : DOMRect) : LongScreenshotSegment :=
  mkSegment url (mkScroll 0 y final) i r.

(** The three segments of the stitching test: an 800 by 600 element, 1800
    pixels of content, captured at 0, 480 and 960. *)
Definition testElement : ElementInfo :=
  plainElement ".long-content" (rectOf 0 0 800 600) true 1800 600.

Definition testSegments : list LongScreenshotSegment :=
  [segmentAt "data:image/png;base64,segment1" 0 0 false (rectOf 0 0 800 600);
   segmentAt "data:image/png;base64,segment2" 1 480 false (rectOf 0 0 800 600);
   segmentAt "data:image/png;base64,segment3" 2 960 true (rectOf 0 0 800 600)].


(** The height that segment [s], at index [i] and decoded as [img], adds to
    the write offset: its adjusted crop less the overlap with the segment
    before. *)
Definition contributedHeight (segments : list LongScreenshotSegment)
           (elementWidth dpr : Q) (i : nat) (s : LongScreenshotSegment)
           (img : Image) : Q :=
  crop_height (ScreenshotProcessor.segmentCrop s img elementWidth dpr)
  - overlapOf segments i dpr.

(** *** Orchestration fixtures *)

(** The messages of a complete run but the closing reset: the opening
    reset, then one scroll per planned offset. *)
Definition script (selector : string) (plan : list ScrollPosition)
  : list TabMessage :=
  RESET_SCROLL selector
  :: map (fun p => SCROLL_TO_POSITION selector (scroll_y p)) plan.

(** The tab after the content script has handled [msgs]. *)
Definition replay (tab : Tab) (msgs : list TabMessage) : Tab :=
  fold_left ContentScript.handleMessage msgs tab.

Definition freshWorld (maxScrollTop : Q) : World :=
  mkWorld (mkTab 0 0 maxScrollTop []) 0 0 0.

Definition shot : string := "data:image/png;base64,shot".

(** Every external call succeeds. *)
Definition reliableHost : TabHost :=
  mkTabHost (fun _ => None) (fun _ => Resolved shot)
            (fun _ => Resolved (rectOf 0 0 800 600)).

(** The second capture is rejected. *)
Definition secondCaptureFails : TabHost :=
  mkTabHost (fun _ => None)
            (fun k => if (k =? 1)%nat then Rejected "Tab was closed"
                      else Resolved shot)
            (fun _ => Resolved (rectOf 0 0 800 600)).

(** *** Error handling fixtures *)

(** [sub] occurs in [s]. *)
Definition Contains (s sub : string) : Prop :=
  exists before after, s = before ++ sub ++ after.

(** The message, in lower case, contains the keyword. *)
Definition mentions (errorMessage keyword : string) : Prop :=
  Contains (toLowerCase errorMessage) keyword.

Definition noRetryOverrides : PartialRetryConfig :=
  mkPartialRetryConfig None None None None.

Definition noFallbackOverrides : PartialFallbackOptions :=
  mkPartialFallbackOptions None None None None.

(** An operation that fails twice with a capture error and then resolves. *)
Definition thirdTimeLucky (k : nat) : Result string :=
  match k with
  | 0%nat | 1%nat => Rejected "Screenshot capture failed"
  | _ => Resolved "success"
  end.

Definition alwaysFails (m : string) (k : nat) : Result string := Rejected m.

(** *** Shadows *)

(** The four lengths of one shadow. *)
Record Shadow := mkShadow {
  offsetX : Q;
  offsetY : Q;
  blurRadius : Q;
  spreadRadius : Q
}.

(** The lengths that [parseShadowExtent] reads from one shadow of a
    comma-separated list: the first four values, a value that is missing or
    is not a number counting as 0; no shadow when there are fewer than two
    values. *)
Definition readShadow (shadow : string) : option Shadow :=
  let values := splitWhitespace (trim shadow) in
  if (2 <=? List.length values)%nat then
    Some (mkShadow (orZero (parseFloatAt values 0))
                   (orZero (parseFloatAt values 1))
                   (orZero (parseFloatAt values 2))
                   (orZero (parseFloatAt values 3)))
  else None.

Definition readShadows (pieces : list string) : list Shadow :=
  flat_map (fun piece => match readShadow piece with
                         | Some s => [s]
                         | None => []
                         end) pieces.

(** The shadows of a [box-shadow] or [text-shadow] value. *)
Definition shadowsOf (value : string) : list Shadow :=
  if ContentScript.isShadowValue value then readShadows (split "," value)
  else [].

(** The extent of a shadow as the code computes it. *)
Definition extentOf (s : Shadow) : Q :=
  Math_max (Math_abs (offsetX s)) (Math_abs (offsetY s))
  + Math_abs (blurRadius s) + Math_abs (spreadRadius s).


(** The element of the shadow test, at (100,100), 200 by 100, in a window
    that is not scrolled. *)
Definition shadowStyles (box text : string) : ComputedElementStyles :=
  mkStyles "static" "none" "center" box text "none" "0" "visible" "auto".

Definition cardElement (box text : string) : Element :=
  mkElement (rectOf 100 100 200 100) 100 100 "visible"
            (shadowStyles box text) "#card" None None.

Definition unscrolledWindow : Window := mkWindow 0 0 800 0 0.

Definition showShadow (s : Shadow) : list Q :=
  map Qred [offsetX s; offsetY s; blurRadius s; spreadRadius s].

(** *** Further fixtures *)

(** Two crop areas with equal numbers. *)
Definition cropEq (a b : CropArea) : Prop :=
  crop_x a == crop_x b /\ crop_y a == crop_y b /\
  crop_width a == crop_width b /\ crop_height a == crop_height b.

(** A rectangle whose edges and sizes agree. *)
Definition wellFormed (r : DOMRect) : Prop :=
  right r == left r + width r /\ bottom r == top r + height r /\
  0 <= width r /\ 0 <= height r.


(** The source rectangle of a [drawImage]. *)
Definition op_sx (op : CanvasOp) : Q :=
  match op with drawImage _ sx _ _ _ _ _ _ _ => sx | _ => 0 end.
Definition op_sw (op : CanvasOp) : Q :=
  match op with drawImage _ _ _ sw _ _ _ _ _ => sw | _ => 0 end.

(** Segment [s] decodes and its crop is not cut down by the image. *)
Definition uncut (host : Host) (elementWidth dpr : Q)
           (s : LongScreenshotSegment) : Prop :=
  exists img,
    loadImage host (dataUrl s) = Some img /\
    crop_height (ScreenshotProcessor.segmentCrop s img elementWidth dpr)
    == height (elementRect s) * dpr.


Definition sampleClock : Clock :=
  mkClock "2026-11-01T09:30:15.123Z"
          "09:30:15 GMT+0000 (Coordinated Universal Time)".

(** The last segment of [todo], or [prev] when there is none. *)
Definition lastSegment (prev : LongScreenshotSegment)
           (todo : list LongScreenshotSegment) : LongScreenshotSegment :=
  fold_left (fun _ s => s) todo prev.


(** Four captures of [longElement] at its planned offsets. *)
Definition plannedSegments : list LongScreenshotSegment :=
  [segmentAt shot 0 0 false (rectOf 0 0 800 600);
   segmentAt shot 1 (600 * (8 # 10)) false (rectOf 0 0 800 600);
   segmentAt shot 2 (600 * (8 # 10) + 600 * (8 # 10)) false
             (rectOf 0 0 800 600);
   segmentAt shot 3 (600 * (8 # 10) + 600 * (8 # 10) + 600 * (8 # 10)) false
             (rectOf 0 0 800 600)].



(** What [handleError] throws when the retry loop was left with an error
    of message [lastError]: the canned message of its class, behind the
    notice of [attemptFallback] when the class has a fallback. *)
Definition rejectionFor (lastError : string) : string :=
  let errorInfo :=
    ErrorHandler.createErrorInfo (ErrorHandler.classifyError lastError) None in
  if fallbackAvailable errorInfo
  then "All fallback strategies failed for error: " ++ chineseMessage errorInfo
  else chineseMessage errorInfo.

(** The operation fails at every call before the [k]-th with an error
    that is classified as retryable. *)
Definition failsRetryablyBefore {T} (operation : nat -> Result T) (k : nat)
  : Prop :=
  forall j,
    (j < k)%nat ->
    exists m,
      operation j = Rejected m /\
      retryable (ErrorHandler.ERROR_DEFINITIONS (ErrorHandler.classifyError m))
      = true.

(** Fails once with a capture error, then with a missing element. *)
Definition thenElementMissing (k : nat) : Result string :=
  match k with
  | 0%nat => Rejected "Screenshot capture failed"
  | _ => Rejected "Element not found: #target"
  end.

(** None of the four placeholders of [generateFilename] occurs in [s]. *)
Definition noPlaceholder (s : string) : bool :=
  negb (includes s "{timestamp}") && negb (includes s "{date}")
  && negb (includes s "{time}") && negb (includes s "{format}").

(** A later reading of the clock. *)
Definition laterClock : Clock :=
  mkClock "2026-11-02T17:45:00.000Z"
          "17:45:00 GMT+0000 (Coordinated Universal Time)".

(** A page whose screenshots do not decode. *)
Definition brokenImageHost : Host := mkHost (fun _ => None) true.

(** * Properties *)

(** ** Comparisons and extrema *)

Lemma leb_num_true a b : leb_num a b = true <-> a <= b.
Proof. apply Qle_bool_iff. Qed.

Lemma leb_num_false a b : leb_num a b = false <-> b < a.
Proof.
  unfold leb_num. split; intro H.
  - apply Qnot_le_lt. intro Hle. apply Qle_bool_iff in Hle. congruence.
  - destruct (Qle_bool a b) eqn:E; [|reflexivity].
    apply Qle_bool_iff in E. exfalso. apply (Qlt_not_le _ _ H E).
Qed.


Lemma geb_num_false a b : geb_num a b = false <-> a < b.
Proof. apply leb_num_false. Qed.

Lemma gtb_num_true a b : gtb_num a b = true <-> b < a.
Proof.
  unfold gtb_num. rewrite negb_true_iff. apply leb_num_false.
Qed.

Lemma Math_max_cases a b :
  (b <= a /\ Math_max a b == a) \/ (a <= b /\ Math_max a b == b).
Proof.
  unfold Math_max.
  destruct (Q.max_spec a b) as [[H1 H2]|[H1 H2]].
  - right. split; [apply Qlt_le_weak; exact H1 | exact H2].
  - left. split; assumption.
Qed.

Lemma Math_min_cases a b :
  (a <= b /\ Math_min a b == a) \/ (b <= a /\ Math_min a b == b).
Proof.
  unfold Math_min.
  destruct (Q.min_spec a b) as [[H1 H2]|[H1 H2]].
  - left. split; [apply Qlt_le_weak; exact H1 | exact H2].
  - right. split; assumption.
Qed.

Lemma Math_max_l a b : a <= Math_max a b.
Proof. apply Q.le_max_l. Qed.

Lemma Math_max_r a b : b <= Math_max a b.
Proof. apply Q.le_max_r. Qed.

Lemma Math_abs_nonneg a : 0 <= Math_abs a.
Proof. apply Qabs_nonneg. Qed.

(** Case analysis on every [Math.max] and [Math.min] of the goal and of the
    hypotheses, for [lra]. *)
Ltac split_extrema :=
  repeat
    (repeat match goal with
            | H : context [Math_max _ _] |- _ => revert H
            | H : context [Math_min _ _] |- _ => revert H
            end;
     match goal with
     | |- context [Math_max ?a ?b] =>
         generalize (Math_max_cases a b); generalize (Math_max a b);
         intros ? [[? ?]|[? ?]]
     | |- context [Math_min ?a ?b] =>
         generalize (Math_min_cases a b); generalize (Math_min a b);
         intros ? [[? ?]|[? ?]]
     end);
  intros.

(** ** The planner loop *)

Section PlannerLoop.

Variables totalScrollHeight segmentHeight : Q.

Abbreviation loop fuel len cur :=
  (scrollLoop fuel totalScrollHeight segmentHeight len cur).


(** Enough fuel always ends the loop. *)
Lemma scrollLoop_terminates fuel :
  forall len cur, (51 - len < fuel)%nat -> exists l, loop fuel len cur = Some l.
Proof.
  induction fuel as [|fuel IH]; intros len cur Hfuel; [lia|].
  simpl.
  destruct (leb_num cur totalScrollHeight); [|eauto].
  destruct (geb_num cur totalScrollHeight); [eauto|].
  destruct (Nat.ltb 50 (S len)) eqn:Ecap; [eauto|].
  apply Nat.ltb_ge in Ecap.
  destruct (IH (S len) (cur + segmentHeight)) as [l Hl]; [lia|].
  rewrite Hl. simpl. eauto.
Qed.

(** More fuel does not change a result. *)
Lemma scrollLoop_fuel_mono fuel :
  forall len cur l extra,
    loop fuel len cur = Some l -> loop (fuel + extra) len cur = Some l.
Proof.
  induction fuel as [|fuel IH]; intros len cur l extra Hrun; [discriminate|].
  simpl in *.
  destruct (leb_num cur totalScrollHeight); [|exact Hrun].
  destruct (geb_num cur totalScrollHeight); [exact Hrun|].
  destruct (Nat.ltb 50 (S len)); [exact Hrun|].
  destruct (loop fuel (S len) (cur + segmentHeight)) as [l'|] eqn:E;
    [|discriminate].
  rewrite (IH _ _ _ extra E). exact Hrun.
Qed.

(** The first position pushed is the current scroll top. *)
Lemma scrollLoop_head fuel len cur l :
  cur <= totalScrollHeight ->
  loop fuel len cur = Some l ->
  exists rest,
    l = mkScroll 0 cur (geb_num cur totalScrollHeight) :: rest.
Proof.
  intros Hle Hrun. destruct fuel as [|fuel]; [discriminate|].
  apply leb_num_true in Hle.
  simpl in Hrun. rewrite Hle in Hrun.
  destruct (geb_num cur totalScrollHeight).
  - inversion Hrun. eauto.
  - destruct (Nat.ltb 50 (S len)).
    + inversion Hrun. eauto.
    + destruct (loop fuel (S len) (cur + segmentHeight)); [|discriminate].
      inversion Hrun. eauto.
Qed.








End PlannerLoop.

(** ** The planner *)

Lemma planWith_scrollable fuel factor e :
  isScrollable e = true ->
  visibleHeight e < totalHeight e ->
  planWith fuel factor e =
  scrollLoop fuel (totalHeight e - visibleHeight e)
                     (visibleHeight e * factor) 0 0.
Proof.
  intros Hs Hlt. unfold planWith. rewrite Hs. simpl.
  apply leb_num_false in Hlt. rewrite Hlt. reflexivity.
Qed.

(** The planner always returns: the fuel of the model never runs out. *)
Lemma planWith_returns factor e :
  exists l, planWith loopFuel factor e = Some l.
Proof.
  unfold planWith.
  destruct (negb (isScrollable e) || leb_num (totalHeight e) (visibleHeight e));
    [eauto|].
  apply scrollLoop_terminates. unfold loopFuel. lia.
Qed.

Example plan_unscrollable :
  option_map showPlan
    (ScreenshotProcessor.calculateScrollSegments
       (plainElement "#short" (rectOf 0 0 800 400) false 400 400))
  = Some [(0, true)].
Proof. vm_compute. reflexivity. Qed.

Example plan_exact_multiple :
  option_map showPlan
    (ScreenshotProcessor.calculateScrollSegments
       (plainElement "#exact" (rectOf 0 0 800 500) true 1300 500))
  = Some [(0, false); (400, false); (800, true)].
Proof. vm_compute. reflexivity. Qed.

Example plan_content_script :
  option_map showPlan (ContentScript.calculateScrollSegments longElement)
  = Some [(0, false); (540, false); (1080, false); (1620, false)].
Proof. vm_compute. reflexivity. Qed.







(** ** Cropping and stitching *)



Lemma adjustCropArea_min_size crop w h :
  1 <= crop_width (ScreenshotProcessor.adjustCropArea crop w h) /\
  1 <= crop_height (ScreenshotProcessor.adjustCropArea crop w h).
Proof.
  unfold ScreenshotProcessor.adjustCropArea. simpl.
  split; apply Math_max_l.
Qed.

Section SegmentCrop.

Variables (segment : LongScreenshotSegment) (img : Image).
Variables elementWidth dpr : Q.

Abbreviation scaledHeight := (height (elementRect segment) * dpr).
Abbreviation theCrop :=
  (ScreenshotProcessor.segmentCrop segment img elementWidth dpr).




End SegmentCrop.

Lemma calculateOverlapHeight_defined segments i dpr cur prev :
  (0 < i)%nat ->
  nth_error segments i = Some cur ->
  nth_error segments (i - 1) = Some prev ->
  ScreenshotProcessor.calculateOverlapHeight segments i dpr
  = Some (Math_max 0 (height (elementRect cur)
                      - (scroll_y (scrollPosition cur)
                         - scroll_y (scrollPosition prev))) * dpr).
Proof.
  intros Hi Hc Hp. unfold ScreenshotProcessor.calculateOverlapHeight.
  destruct (Nat.eqb_spec i 0) as [->|_]; [lia|].
  rewrite Hc, Hp. reflexivity.
Qed.


Example overlap_of_test_segments :
  map (fun i => option_map Qred
                  (ScreenshotProcessor.calculateOverlapHeight testSegments i 2))
      [0%nat; 1%nat; 2%nat; 3%nat]
  = [Some 0; Some 240; Some 240; None].
Proof. vm_compute. reflexivity. Qed.




Section StitchLoop.

Variables (host : Host) (segments : list LongScreenshotSegment).
Variables elementWidth dpr : Q.

Lemma stitchSegment_resolves i s img y :
  nth_error segments i = Some s ->
  loadImage host (dataUrl s) = Some img ->
  exists op added,
    ScreenshotProcessor.stitchSegment host segments elementWidth dpr i s y
    = Resolved (op, added) /\
    added = op_dh op /\
    op_image op = Some (dataUrl s) /\
    op_dy op = y /\
    op_sh op = op_dh op /\
    op_dh op == contributedHeight segments elementWidth dpr i s img /\
    op_sy op
    == crop_y (ScreenshotProcessor.segmentCrop s img elementWidth dpr)
       + overlapOf segments i dpr.
Proof.
  intros Hs Himg. unfold ScreenshotProcessor.stitchSegment, contributedHeight.
  rewrite Himg. destruct i as [|i].
  - change (0 <? 0)%nat with false. cbv iota.
    eexists; eexists. split; [reflexivity|].
    unfold overlapOf; simpl.
    repeat split; ring.
  - assert (Hprev : exists prev, nth_error segments (S i - 1) = Some prev).
    { assert (Hlt : (S i < List.length segments)%nat)
        by (apply nth_error_Some; congruence).
      destruct (nth_error segments (S i - 1)) eqn:E; [eauto|].
      apply nth_error_None in E. lia. }
    destruct Hprev as [prev Hprev].
    pose proof (calculateOverlapHeight_defined segments (S i) dpr s prev
                  (Nat.lt_0_succ i) Hs Hprev) as Hov.
    change (0 <? S i)%nat with true. cbv iota.
    unfold overlapOf. rewrite Hov.
    eexists; eexists. split; [reflexivity|]. simpl.
    repeat split; reflexivity.
Qed.


End StitchLoop.

Example stitch_test_segments :
  match ScreenshotProcessor.stitchScreenshotSegments
          (uniformHost 1600 1200) testSegments testElement 2 with
  | Resolved c =>
      (Qred (canvas_width c), Qred (canvas_height c),
       map Qred (drawnHeights (operations c)),
       map (fun op => Qred (op_dy op)) (operations c),
       map (fun op => Qred (op_sy op)) (operations c))
      = (1600, 3600, [1200; 960; 960], [0; 1200; 2160], [0; 240; 240])
  | Rejected _ => False
  end.
Proof. vm_compute. reflexivity. Qed.

Example stitch_no_segments host e dpr :
  ScreenshotProcessor.stitchScreenshotSegments host [] e dpr
  = Rejected "Screenshot stitching failed: No segments to stitch".
Proof. reflexivity. Qed.

Example stitch_undecodable_segment :
  ScreenshotProcessor.stitchScreenshotSegments
    (mkHost (fun _ => None) true) testSegments testElement 2
  = Rejected "Screenshot stitching failed: Failed to load image".
Proof. reflexivity. Qed.




(** C9.  Stitching a single segment is cropping it: the call returns what
    [cropToElement] returns on the segment's data URL, be it a raster or a
    rejection (the promise is returned, not awaited, so that the [catch] of
    the stitcher does not wrap the error). *)
Theorem C9_single_segment_is_crop
        (host : Host) (s : LongScreenshotSegment) (e : ElementInfo) (dpr : Q) :
  ScreenshotProcessor.stitchScreenshotSegments host [s] e dpr
  = ScreenshotProcessor.cropToElement host (dataUrl s) e dpr.
Proof. reflexivity. Qed.

Example crop_of_single_segment :
  match ScreenshotProcessor.stitchScreenshotSegments
          (uniformHost 1600 1200)
          [segmentAt "data:image/png;base64,only" 0 0 true (rectOf 0 0 800 600)]
          (plainElement ".single" (rectOf 100 50 800 600) false 600 600) 2 with
  | Resolved c =>
      (Qred (canvas_width c), Qred (canvas_height c),
       map (fun op => (Qred (op_sy op), Qred (op_sh op))) (operations c))
      = (1400, 1100, [(100, 1100)])
  | Rejected _ => False
  end.
Proof. vm_compute. reflexivity. Qed.

Example crop_failure_is_not_wrapped :
  ScreenshotProcessor.stitchScreenshotSegments
    (mkHost (fun _ => None) true)
    [segmentAt "broken" 0 0 true (rectOf 0 0 800 600)] testElement 2
  = Rejected "Screenshot cropping failed: Failed to load image".
Proof. reflexivity. Qed.

(** ** The long-screenshot orchestration *)

Section Orchestration.

Variable host : TabHost.

Lemma sendMessage_cases msg w :
  (exists m, sendMessage host msg w
             = (Rejected m,
                mkWorld (world_tab w) (S (sends w)) (captures w) (measures w)))
  \/
  sendMessage host msg w
  = (Resolved tt,
     mkWorld (ContentScript.handleMessage (world_tab w) msg) (S (sends w))
             (captures w) (measures w)).
Proof.
  unfold sendMessage.
  destruct (sendMessageOutcome host (sends w)); [left; eauto | right; reflexivity].
Qed.

Lemma captureFullPage_tab w :
  world_tab (snd (ScreenshotProcessor.captureFullPage host w)) = world_tab w.
Proof. reflexivity. Qed.

Lemma getElementRectAfterScroll_tab w :
  world_tab (snd (ScreenshotProcessor.getElementRectAfterScroll host w)) = world_tab w.
Proof. reflexivity. Qed.

Lemma replay_snoc tab msgs msg :
  replay tab (msgs ++ [msg])%list = ContentScript.handleMessage (replay tab msgs) msg.
Proof. unfold replay. rewrite fold_left_app. reflexivity. Qed.

Lemma replay_cons tab msg msgs :
  replay tab (msg :: msgs) = replay (ContentScript.handleMessage tab msg) msgs.
Proof. reflexivity. Qed.

(** The capture loop handles one scroll per planned offset, in order, up to
    the step that fails; when it resolves it has captured a segment for
    every planned offset. *)
Lemma captureSegments_handled selector :
  forall plan i w r w',
    ScreenshotProcessor.captureSegments host selector i plan w = (r, w') ->
    exists j,
      (j <= List.length plan)%nat /\
      world_tab w'
      = replay (world_tab w)
               (map (fun p => SCROLL_TO_POSITION selector (scroll_y p))
                    (firstn j plan)) /\
      match r with
      | Resolved segments =>
          j = List.length plan /\ map scrollPosition segments = plan
      | Rejected _ => True
      end.
Proof.
  induction plan as [|pos rest IH]; intros i w r w' Hrun.
  - simpl in Hrun. unfold ret in Hrun. inversion Hrun; subst.
    exists 0%nat. simpl. auto.
  - simpl in Hrun. unfold bind at 1 in Hrun.
    destruct (sendMessage_cases
                (SCROLL_TO_POSITION selector (scroll_y pos)) w)
      as [[m Hsend]|Hsend]; rewrite Hsend in Hrun.
    + inversion Hrun; subst. exists 0%nat. simpl.
      split; [lia|]. split; reflexivity.
    + unfold bind at 1 in Hrun.
      destruct (ScreenshotProcessor.captureFullPage host _) as [[url|m] w1] eqn:Hcap.
      2:{ inversion Hrun; subst. exists 1%nat. simpl.
          split; [lia|]. split; [|exact I].
          pose proof (captureFullPage_tab
                        (mkWorld (ContentScript.handleMessage (world_tab w)
                                    (SCROLL_TO_POSITION selector (scroll_y pos)))
                                 (S (sends w)) (captures w) (measures w))) as Ht.
          rewrite Hcap in Ht. simpl in Ht. exact Ht. }
      assert (Ht1 : world_tab w1
                    = ContentScript.handleMessage (world_tab w)
                        (SCROLL_TO_POSITION selector (scroll_y pos))).
      { pose proof (captureFullPage_tab
                      (mkWorld (ContentScript.handleMessage (world_tab w)
                                  (SCROLL_TO_POSITION selector (scroll_y pos)))
                               (S (sends w)) (captures w) (measures w))) as Ht.
        rewrite Hcap in Ht. exact Ht. }
      unfold bind at 1 in Hrun.
      destruct (ScreenshotProcessor.getElementRectAfterScroll host w1)
        as [[rect|m] w2] eqn:Hrect.
      2:{ inversion Hrun; subst. exists 1%nat. simpl.
          split; [lia|]. split; [|exact I].
          pose proof (getElementRectAfterScroll_tab w1) as Ht.
          rewrite Hrect in Ht. simpl in Ht. rewrite Ht. exact Ht1. }
      assert (Ht2 : world_tab w2 = world_tab w1).
      { pose proof (getElementRectAfterScroll_tab w1) as Ht.
        rewrite Hrect in Ht. exact Ht. }
      unfold bind at 1 in Hrun.
      destruct (ScreenshotProcessor.captureSegments host selector (S i) rest w2)
        as [[segments|m] w3] eqn:Hrest.
      * unfold ret in Hrun. inversion Hrun; subst.
        destruct (IH _ _ _ _ Hrest) as [j [Hj [Htab [Hall Hmap]]]].
        exists (S j). simpl. split; [lia|].
        split; [rewrite Htab, Ht2, Ht1; reflexivity|].
        split; [congruence|]. simpl. rewrite Hmap. reflexivity.
      * inversion Hrun; subst.
        destruct (IH _ _ _ _ Hrest) as [j [Hj [Htab _]]].
        exists (S j). simpl. split; [lia|].
        split; [rewrite Htab, Ht2, Ht1; reflexivity|exact I].
Qed.

End Orchestration.

Example capture_reliable :
  let '(r, w) :=
    ScreenshotProcessor.captureLongScreenshot reliableHost longElement
                                       (freshWorld 1800) in
  (match r with
   | Resolved (segments, total) =>
       (map (fun s => Qred (scroll_y (scrollPosition s))) segments, Qred total)
       = ([0; 480; 960; 1440], 2400)
   | Rejected _ => False
   end) /\
  Qred (tab_scrollTop (world_tab w)) = 0 /\ sends w = 6%nat.
Proof. vm_compute. repeat split. Qed.

(** C5 (as amended).  A run that succeeds has handled the opening reset,
    one scroll per planned offset and the closing reset, which leaves the
    target at (0,0), and it returns a segment for every planned offset.  A
    run that fails throws; it returns no segments; and the messages handled
    are a prefix of the opening reset and the scrolls: nothing is sent
    after the step that failed, so that the target stays where the last
    handled message put it. *)
Theorem C5_success_resets_failure_throws
        (host : TabHost) (e : ElementInfo) (w : World) :
  exists plan,
    ScreenshotProcessor.calculateScrollSegments e = Some plan /\
    match ScreenshotProcessor.captureLongScreenshot host e w with
    | (Resolved (segments, total), w') =>
        world_tab w'
        = replay (world_tab w)
                 (script (selector e) plan ++ [RESET_SCROLL (selector e)])%list /\
        tab_scrollTop (world_tab w') = 0 /\
        tab_scrollLeft (world_tab w') = 0 /\
        map scrollPosition segments = plan /\
        total = totalHeight e
    | (Rejected m, w') =>
        exists cause j,
          m = "Long screenshot capture failed: " ++ cause /\
          world_tab w'
          = replay (world_tab w) (firstn j (script (selector e) plan))
    end.
Proof.
  destruct (planWith_returns (8 # 10) e) as [plan Hplan].
  fold (ScreenshotProcessor.calculateScrollSegments e) in Hplan.
  exists plan. split; [exact Hplan|].
  unfold ScreenshotProcessor.captureLongScreenshot, tryRethrow.
  rewrite Hplan. unfold bind at 1.
  destruct (sendMessage_cases host (RESET_SCROLL (selector e)) w)
    as [[m Hsend]|Hsend]; rewrite Hsend.
  - simpl. exists m, 0%nat. split; reflexivity.
  - unfold bind at 1.
    destruct (ScreenshotProcessor.captureSegments host (selector e) 0 plan _)
      as [[segments|m] w1] eqn:Hloop.
    + destruct (captureSegments_handled _ _ _ _ _ _ _ Hloop)
        as [j [_ [Htab [Hj Hmap]]]].
      subst j. rewrite firstn_all in Htab. simpl in Htab.
      unfold bind at 1.
      destruct (sendMessage_cases host (RESET_SCROLL (selector e)) w1)
        as [[m Hsend2]|Hsend2]; rewrite Hsend2.
      * simpl. exists m, (S (List.length plan)).
        split; [reflexivity|].
        unfold script. rewrite firstn_cons, firstn_all2;
          [|rewrite length_map; lia].
        rewrite Htab. reflexivity.
      * unfold ret. simpl.
        split; [rewrite replay_snoc, <- Htab; reflexivity|].
        repeat split; assumption.
    + destruct (captureSegments_handled _ _ _ _ _ _ _ Hloop)
        as [j [_ [Htab _]]].
      simpl. exists m, (S j). split; [reflexivity|].
      unfold script. rewrite firstn_cons, firstn_map.
      rewrite Htab. reflexivity.
Qed.

(** C5 fails as stated: when the capture at the second planned offset is
    rejected, the run throws with the target left at [scrollTop = 480]; the
    last message handled is the scroll to 480, and no reset follows. *)
Lemma C5_counterexample :
  exists m w',
    ScreenshotProcessor.captureLongScreenshot secondCaptureFails longElement
                                       (freshWorld 1800)
    = (Rejected m, w') /\
    Qred (tab_scrollTop (world_tab w')) = 480 /\
    ~ tab_scrollTop (world_tab w') == 0 /\
    sends w' = 3%nat /\
    List.length (tab_handled (world_tab w')) = 3%nat /\
    (forall sel, last (tab_handled (world_tab w')) (RESET_SCROLL sel)
                 <> RESET_SCROLL sel).
Proof.
  eexists; eexists. split; [vm_compute; reflexivity|].
  split; [vm_compute; reflexivity|].
  split; [vm_compute; discriminate|].
  split; [reflexivity|].
  split; [reflexivity|].
  intros sel. vm_compute. discriminate.
Qed.

(** ** Error classification *)

Lemma prefix_spec p :
  forall s, prefix p s = true <-> exists after, s = p ++ after.
Proof.
  induction p as [|a p IH]; intros s.
  - split; [intros _; exists s; reflexivity|].
    intros _. destruct s; reflexivity.
  - destruct s as [|b s]; simpl.
    + split; [discriminate|]. intros [after H]. discriminate H.
    + destruct (ascii_dec a b) as [->|Hne].
      * rewrite IH. split; intros [after H]; exists after.
        -- rewrite H. reflexivity.
        -- inversion H. reflexivity.
      * split; [discriminate|]. intros [after H]. inversion H. congruence.
Qed.

(** [includes] decides occurrence. *)
Lemma includes_spec s :
  forall sub, includes s sub = true <-> Contains s sub.
Proof.
  unfold Contains.
  induction s as [|c s IH]; intros sub.
  - change (includes "" sub) with (prefix sub "").
    rewrite prefix_spec. split.
    + intros [after H]. exists "", after. exact H.
    + intros [before [after H]].
      destruct before; [exists after; exact H|discriminate H].
  - change (includes (String c s) sub)
      with (prefix sub (String c s) || includes s sub).
    rewrite orb_true_iff, IH, prefix_spec. split.
    + intros [[after H]|[before [after H]]].
      * exists "", after. exact H.
      * exists (String c before), after. simpl. rewrite H. reflexivity.
    + intros [before [after H]]. destruct before as [|b before].
      * left. exists after. exact H.
      * right. inversion H. exists before, after. reflexivity.
Qed.

Lemma includes_false s sub : includes s sub = false <-> ~ Contains s sub.
Proof.
  rewrite <- includes_spec. destruct (includes s sub); split; intro H;
    try reflexivity; try discriminate; try (intro; discriminate).
  exfalso. apply H. reflexivity.
Qed.

Example classify_test_messages :
  map ErrorHandler.classifyError
      ["Element not found: #test-selector";
       "Permission denied for screenshot";
       "Failed to download screenshot file";
       "Screenshot capture failed";
       "Unknown error occurred"]
  = [ELEMENT_NOT_FOUND; PERMISSION_DENIED; DOWNLOAD_FAILED; CAPTURE_FAILED;
     PROCESSING_ERROR].
Proof. vm_compute. reflexivity. Qed.

Lemma either_keyword s k1 k2 :
  includes s k1 || includes s k2 = true <-> Contains s k1 \/ Contains s k2.
Proof. rewrite orb_true_iff, !includes_spec. reflexivity. Qed.

Lemma any_keyword s k1 k2 k3 :
  includes s k1 || includes s k2 || includes s k3 = true
  <-> Contains s k1 \/ Contains s k2 \/ Contains s k3.
Proof. rewrite !orb_true_iff, !includes_spec. tauto. Qed.

(** C6 (as amended).  Classification looks for keywords in the message in
    lower case, in this order: "element not found" or "selector" give
    [ELEMENT_NOT_FOUND]; else "permission", "denied" or "unauthorized" give
    [PERMISSION_DENIED]; else "download" or "save" give [DOWNLOAD_FAILED];
    else "capture" or "screenshot" give [CAPTURE_FAILED]; every other
    message gives [PROCESSING_ERROR].  The first two kinds are not
    retryable, the other three are. *)
Theorem C6_classification_by_keyword (errorMessage : string) :
  let kind := ErrorHandler.classifyError errorMessage in
  let has := mentions errorMessage in
  let element := has "element not found" \/ has "selector" in
  let permission :=
    has "permission" \/ has "denied" \/ has "unauthorized" in
  let download := has "download" \/ has "save" in
  let capture := has "capture" \/ has "screenshot" in
  (element -> kind = ELEMENT_NOT_FOUND) /\
  (~ element -> permission -> kind = PERMISSION_DENIED) /\
  (~ element -> ~ permission -> download -> kind = DOWNLOAD_FAILED) /\
  (~ element -> ~ permission -> ~ download -> capture ->
   kind = CAPTURE_FAILED) /\
  (~ element -> ~ permission -> ~ download -> ~ capture ->
   kind = PROCESSING_ERROR) /\
  retryable (ErrorHandler.ERROR_DEFINITIONS kind)
  = match kind with
    | ELEMENT_NOT_FOUND | PERMISSION_DENIED => false
    | DOWNLOAD_FAILED | CAPTURE_FAILED | PROCESSING_ERROR => true
    end.
Proof.
  unfold mentions, ErrorHandler.classifyError. cbv zeta.
  set (m := toLowerCase errorMessage).
  pose proof (either_keyword m "element not found" "selector") as H1.
  pose proof (any_keyword m "permission" "denied" "unauthorized") as H2.
  pose proof (either_keyword m "download" "save") as H3.
  pose proof (either_keyword m "capture" "screenshot") as H4.
  destruct (includes m "element not found" || includes m "selector");
    [|destruct (includes m "permission" || includes m "denied"
                || includes m "unauthorized");
      [|destruct (includes m "download" || includes m "save");
        [|destruct (includes m "capture" || includes m "screenshot")]]];
    (split; [|split; [|split; [|split; [|split]]]]);
    try reflexivity; intros; try reflexivity; exfalso;
    intuition discriminate.
Qed.

Lemma C6_classification_by_keyword_witness :
  mentions "Long screenshot capture failed: Scroll control failed" "capture" /\
  ErrorHandler.classifyError
    "Long screenshot capture failed: Scroll control failed"
  = CAPTURE_FAILED.
Proof.
  assert (Hcap : mentions "Long screenshot capture failed: Scroll control failed"
                          "capture").
  { exists "long screenshot ", " failed: scroll control failed". reflexivity. }
  split; [exact Hcap|].
  destruct (C6_classification_by_keyword
              "Long screenshot capture failed: Scroll control failed")
    as [_ [_ [_ [H _]]]].
  apply H.
  - intros [E|E]; apply includes_spec in E; vm_compute in E; discriminate E.
  - intros [E|[E|E]]; apply includes_spec in E; vm_compute in E;
      discriminate E.
  - intros [E|E]; apply includes_spec in E; vm_compute in E; discriminate E.
  - left. exact Hcap.
Defined.

(** C6 fails as stated: "Failed to capture element" contains "element" and
    is classified [CAPTURE_FAILED], which is retryable; "Unauthorized"
    contains none of the eight keywords of the claim and is classified
    [PERMISSION_DENIED], which is not. *)
Lemma C6_counterexample :
  (mentions "Failed to capture element" "element" /\
   ErrorHandler.classifyError "Failed to capture element" = CAPTURE_FAILED /\
   retryable (ErrorHandler.ERROR_DEFINITIONS
                (ErrorHandler.classifyError "Failed to capture element"))
   = true) /\
  (Forall (fun kw => ~ mentions "Unauthorized" kw)
          ["element"; "selector"; "permission"; "denied"; "download"; "save";
           "capture"; "screenshot"] /\
   ErrorHandler.classifyError "Unauthorized" = PERMISSION_DENIED /\
   ErrorHandler.classifyError "Unauthorized" <> PROCESSING_ERROR).
Proof.
  split.
  - split; [exists "failed to capture ", ""; reflexivity|].
    split; reflexivity.
  - split.
    + repeat constructor; apply includes_false; reflexivity.
    + split; [reflexivity|discriminate].
Qed.

(** ** Retry policy *)

Section Retry.

Context {T : Type}.
Variables (config : RetryConfig) (operation : nat -> Result T).

(** The delay that [handleError] waits after a failed attempt, counted
    from 1. *)
Abbreviation backoff attempt :=
  (delayMs config
   * Math_pow (backoffMultiplier config) (Z.of_nat attempt - 1)).

(** Every delay the loop waits follows an attempt that failed with a
    retryable error and was not the last one allowed, and has the length
    the back-off formula gives for that attempt; one call is made per
    attempt, and each call but the last is followed by a delay. *)
Lemma retryLoop_delays :
  forall remaining attempt lastError exit n waited,
    (remaining + attempt = maxAttempts config)%nat ->
    ErrorHandler.retryLoop config operation remaining attempt lastError
    = (exit, n, waited) ->
    (forall k d,
        nth_error waited k = Some d ->
        exists m,
          operation (attempt + k)%nat = Rejected m /\
          retryable (ErrorHandler.ERROR_DEFINITIONS
                       (ErrorHandler.classifyError m)) = true /\
          (S (attempt + k) < maxAttempts config)%nat /\
          d = backoff (S (attempt + k))) /\
    (remaining = 0%nat -> n = attempt /\ waited = []) /\
    ((0 < remaining)%nat -> n = (attempt + List.length waited + 1)%nat).
Proof.
  induction remaining as [|remaining IH];
    intros attempt lastError exit n waited Hinv Hrun.
  - simpl in Hrun. inversion Hrun; subst.
    split; [intros k d Hk; destruct k; discriminate|].
    split; [auto|lia].
  - cbn [ErrorHandler.retryLoop] in Hrun.
    destruct (operation attempt) as [v|m] eqn:Hop.
    + inversion Hrun; subst.
      split; [intros k d Hk; destruct k; discriminate|].
      split; [discriminate|]. intros _. simpl. lia.
    + cbv zeta in Hrun.
      change (retryable (ErrorHandler.createErrorInfo
                           (ErrorHandler.classifyError m) None))
        with (retryable (ErrorHandler.ERROR_DEFINITIONS
                           (ErrorHandler.classifyError m))) in Hrun.
      destruct (retryable (ErrorHandler.ERROR_DEFINITIONS
                             (ErrorHandler.classifyError m))) eqn:Hretry;
        cbn [negb orb] in Hrun.
      * destruct (Nat.leb_spec (maxAttempts config) (S attempt)) as [Hlast|Hmore].
        -- inversion Hrun; subst.
           split; [intros k d Hk; destruct k; discriminate|].
           split; [discriminate|]. intros _. simpl. lia.
        -- destruct (ErrorHandler.retryLoop config operation remaining
                       (S attempt) (Some m)) as [[exit' n'] waited'] eqn:Hrest.
           inversion Hrun; subst.
           assert (Hinv' : (remaining + S attempt = maxAttempts config)%nat)
             by lia.
           destruct (IH _ _ _ _ _ Hinv' Hrest) as [Hds [_ Hn]].
           split.
           ++ intros k d Hk. destruct k as [|k]; simpl in Hk.
              ** inversion Hk; subst d. exists m.
                 rewrite Nat.add_0_r. repeat split; assumption.
              ** destruct (Hds k d Hk) as [m' [Hop' [Hr' [Hlt' Hd']]]].
                 exists m'.
                 replace (attempt + S k)%nat with (S attempt + k)%nat by lia.
                 repeat split; assumption.
           ++ split; [discriminate|]. intros _.
              rewrite Hn by lia. simpl. lia.
      * inversion Hrun; subst.
        split; [intros k d Hk; destruct k; discriminate|].
        split; [discriminate|]. intros _. simpl. lia.
Qed.

(** Conversely, as long as the attempts fail with retryable errors and
    attempts are left, the loop waits after each of them. *)
Lemma retryLoop_waits :
  forall remaining attempt lastError j,
    (remaining + attempt = maxAttempts config)%nat ->
    (attempt + j + 1 < maxAttempts config)%nat ->
    (forall k, (k <= j)%nat ->
               exists m,
                 operation (attempt + k)%nat = Rejected m /\
                 retryable (ErrorHandler.ERROR_DEFINITIONS
                              (ErrorHandler.classifyError m)) = true) ->
    nth_error
      (snd (ErrorHandler.retryLoop config operation remaining attempt
                                   lastError)) j
    = Some (backoff (S (attempt + j))).
Proof.
  induction remaining as [|remaining IH];
    intros attempt lastError j Hinv Hleft Hfail; [lia|].
  cbn [ErrorHandler.retryLoop].
  destruct (Hfail 0%nat (Nat.le_0_l j)) as [m [Hop Hretry]].
  rewrite Nat.add_0_r in Hop. rewrite Hop. cbv zeta.
  change (retryable (ErrorHandler.createErrorInfo
                       (ErrorHandler.classifyError m) None))
    with (retryable (ErrorHandler.ERROR_DEFINITIONS
                       (ErrorHandler.classifyError m))).
  rewrite Hretry. cbn [negb orb].
  destruct (Nat.leb_spec (maxAttempts config) (S attempt)) as [Hlast|_];
    [lia|].
  destruct (ErrorHandler.retryLoop config operation remaining (S attempt)
              (Some m)) as [[exit n] waited] eqn:Hrest.
  cbn [snd]. destruct j as [|j].
  - rewrite Nat.add_0_r. reflexivity.
  - cbn [nth_error].
    assert (Hinv' : (remaining + S attempt = maxAttempts config)%nat) by lia.
    assert (Hleft' : (S attempt + j + 1 < maxAttempts config)%nat) by lia.
    specialize (IH (S attempt) (Some m) j Hinv' Hleft').
    rewrite Hrest in IH. cbn [snd] in IH.
    replace (attempt + S j)%nat with (S attempt + j)%nat by lia.
    apply IH. intros k Hk.
    destruct (Hfail (S k) ltac:(lia)) as [m' Hm'].
    exists m'. replace (S attempt + k)%nat with (attempt + S k)%nat by lia.
    exact Hm'.
Qed.

End Retry.

Lemma handleError_trace {T} (operation : nat -> Result T) ctx rc fo :
  let config := ErrorHandler.mergeRetryConfig rc in
  let loop := ErrorHandler.retryLoop config operation (maxAttempts config)
                                     0 None in
  calls (ErrorHandler.handleError operation ctx rc fo) = snd (fst loop) /\
  delays (ErrorHandler.handleError operation ctx rc fo) = snd loop.
Proof.
  cbv zeta. unfold ErrorHandler.handleError.
  destruct (ErrorHandler.retryLoop _ operation _ 0 None) as [[exit n] waited].
  destruct exit as [v|[m|]]; simpl; auto.
  destruct (fallbackAvailable _); simpl; auto.
Qed.

Example retry_test_default_config :
  let run := ErrorHandler.handleError thirdTimeLucky "Test operation"
               noRetryOverrides noFallbackOverrides in
  outcome run = Resolved "success" /\ calls run = 3%nat /\
  map Qred (delays run) = [1000; 2000].
Proof. vm_compute. repeat split. Qed.

Example retry_test_exhausted :
  let run := ErrorHandler.handleError
               (alwaysFails "Screenshot capture failed") "Test operation"
               (mkPartialRetryConfig (Some 2%nat) (Some 10) None None)
               noFallbackOverrides in
  calls run = 2%nat /\ map Qred (delays run) = [10] /\
  exists m, outcome run = Rejected m.
Proof. vm_compute. repeat split. eexists. reflexivity. Qed.

Example retry_test_not_retryable :
  let run := ErrorHandler.handleError
               (alwaysFails "Element not found") "Test operation"
               (mkPartialRetryConfig (Some 3%nat) (Some 10) None None)
               noFallbackOverrides in
  calls run = 1%nat /\ delays run = [] /\
  outcome run = Rejected "頁面上找不到指定的元素".
Proof. vm_compute. repeat split. Qed.

(** [retryableErrors] of the configuration is not consulted: an empty list
    does not stop the retries. *)
Example retry_ignores_retryableErrors :
  let run := ErrorHandler.handleError thirdTimeLucky "Test operation"
               (mkPartialRetryConfig None (Some 100) None (Some []))
               noFallbackOverrides in
  outcome run = Resolved "success" /\ calls run = 3%nat /\
  map Qred (delays run) = [100; 200].
Proof. vm_compute. repeat split. Qed.

(** C7.  Every delay that [handleError] waits follows an attempt that
    failed with an error classified as retryable, and lasts
    [delayMs * backoffMultiplier ^ (attempt - 1)] for that attempt (counted
    from 1); conversely this delay is waited after every attempt but the
    last allowed, as long as the attempts fail with retryable errors; the
    number of delays is the number of retries.  With
    [maxAttempts = 3], an operation that fails twice with an error
    classified [CAPTURE_FAILED] and resolves on the third call is called
    three times, that is retried twice, and [handleError] resolves with
    the result of the third call. *)
Theorem C7_backoff_and_success_on_third_call
        {T : Type} (operation : nat -> Result T) (errorContext : string)
        (retryConfig : PartialRetryConfig)
        (fallbackOptions : PartialFallbackOptions) :
  let config := ErrorHandler.mergeRetryConfig retryConfig in
  let run := ErrorHandler.handleError operation errorContext retryConfig
                                      fallbackOptions in
  (forall attempt d,
      (1 <= attempt)%nat ->
      nth_error (delays run) (attempt - 1) = Some d ->
      (exists m,
          operation (attempt - 1)%nat = Rejected m /\
          retryable (ErrorHandler.ERROR_DEFINITIONS
                       (ErrorHandler.classifyError m)) = true) /\
      (attempt < maxAttempts config)%nat /\
      d = delayMs config
          * Math_pow (backoffMultiplier config) (Z.of_nat attempt - 1)) /\
  (forall attempt,
      (1 <= attempt < maxAttempts config)%nat ->
      (forall k, (k < attempt)%nat ->
                 exists m,
                   operation k = Rejected m /\
                   retryable (ErrorHandler.ERROR_DEFINITIONS
                                (ErrorHandler.classifyError m)) = true) ->
      nth_error (delays run) (attempt - 1)
      = Some (delayMs config
              * Math_pow (backoffMultiplier config) (Z.of_nat attempt - 1))) /\
  ((0 < maxAttempts config)%nat ->
   List.length (delays run) = (calls run - 1)%nat) /\
  (maxAttempts config = 3%nat ->
   forall m1 m2 v,
     operation 0%nat = Rejected m1 ->
     ErrorHandler.classifyError m1 = CAPTURE_FAILED ->
     operation 1%nat = Rejected m2 ->
     ErrorHandler.classifyError m2 = CAPTURE_FAILED ->
     operation 2%nat = Resolved v ->
     outcome run = Resolved v /\
     calls run = 3%nat /\
     delays run
     = [delayMs config * Math_pow (backoffMultiplier config) 0;
        delayMs config * Math_pow (backoffMultiplier config) 1]).
Proof.
  cbv zeta.
  destruct (handleError_trace operation errorContext retryConfig
                              fallbackOptions) as [Hcalls Hdelays].
  split; [|split; [|split]].
  - intros attempt d Hattempt Hd. rewrite Hdelays in Hd.
    destruct (ErrorHandler.retryLoop (ErrorHandler.mergeRetryConfig retryConfig)
                operation _ 0 None) as [[exit n] waited] eqn:Hloop.
    destruct (retryLoop_delays _ _ _ _ _ _ _ _ (Nat.add_0_r _) Hloop)
      as [Hds _].
    destruct (Hds _ _ Hd) as [m [Hop [Hretry [Hlt Heq]]]].
    cbn [Nat.add] in Hop, Hlt, Heq.
    replace (S (attempt - 1)) with attempt in * by lia.
    split; [exists m; split; assumption|]. split; assumption.
  - intros attempt [Hone Hleft] Hfail. rewrite Hdelays.
    pose proof (retryLoop_waits (ErrorHandler.mergeRetryConfig retryConfig)
                  operation _ 0 None (attempt - 1) (Nat.add_0_r _)) as Hw.
    cbn [Nat.add] in Hw.
    replace (S (attempt - 1)) with attempt in Hw by lia.
    apply Hw; [lia|].
    intros k Hk. apply Hfail. lia.
  - intros Hmax. rewrite Hcalls, Hdelays.
    destruct (ErrorHandler.retryLoop (ErrorHandler.mergeRetryConfig retryConfig)
                operation _ 0 None) as [[exit n] waited] eqn:Hloop.
    destruct (retryLoop_delays _ _ _ _ _ _ _ _ (Nat.add_0_r _) Hloop)
      as [_ [_ Hn]].
    simpl. rewrite (Hn Hmax). lia.
  - intros Hmax m1 m2 v H0 Hc1 H1 Hc2 H2.
    unfold ErrorHandler.handleError.
    rewrite Hmax. cbn [ErrorHandler.retryLoop].
    rewrite H0. cbv zeta.
    unfold ErrorHandler.createErrorInfo at 1. rewrite Hc1, Hmax.
    cbn [ErrorHandler.ERROR_DEFINITIONS retryable negb orb Nat.leb].
    rewrite H1.
    unfold ErrorHandler.createErrorInfo at 1. rewrite Hc2.
    cbn [ErrorHandler.ERROR_DEFINITIONS retryable negb orb Nat.leb].
    rewrite H2. cbn [outcome calls delays].
    repeat split.
Qed.

Lemma C7_backoff_and_success_on_third_call_witness :
  let run := ErrorHandler.handleError thirdTimeLucky "Test operation"
               noRetryOverrides noFallbackOverrides in
  outcome run = Resolved "success" /\
  calls run = 3%nat /\
  delays run = [1000 * Math_pow 2 0; 1000 * Math_pow 2 1].
Proof.
  destruct (C7_backoff_and_success_on_third_call
              thirdTimeLucky "Test operation" noRetryOverrides
              noFallbackOverrides) as [_ [_ [_ Hthird]]].
  apply (Hthird eq_refl "Screenshot capture failed"
                "Screenshot capture failed" "success");
    reflexivity.
Defined.

(** ** Geometry analysis *)

(** C10.  The [ElementInfo] of an analysed element has
    [totalHeight >= visibleHeight]: [visibleHeight] is the rendered height
    and [totalHeight] the larger of it and [scrollHeight].  The scrollable
    extent [totalHeight - visibleHeight] that the planner computes is
    therefore never negative. *)
Theorem C10_total_height_covers_visible (w : Window) (element : Element) :
  let info := ContentScript.getElementInfo w element in
  visibleHeight info = height (el_rect element) /\
  totalHeight info
  = Math_max (el_scrollHeight element) (height (el_rect element)) /\
  el_scrollHeight element <= totalHeight info /\
  visibleHeight info <= totalHeight info /\
  0 <= totalHeight info - visibleHeight info.
Proof.
  cbv zeta. unfold ContentScript.getElementInfo. cbn [visibleHeight totalHeight].
  unfold ContentScript.detectScrollableElement.
  cbn [info_totalHeight info_visibleHeight].
  split; [reflexivity|]. split; [reflexivity|].
  pose proof (Math_max_l (el_scrollHeight element) (height (el_rect element))).
  pose proof (Math_max_r (el_scrollHeight element) (height (el_rect element))).
  repeat split; try assumption. lra.
Qed.

Example analysed_long_list :
  let info :=
    ContentScript.getElementInfo
      (mkWindow 0 120 800 0 120)
      (mkElement (rectOf 10 20 400 300) 1250 300 "auto"
                 (mkStyles "static" "none" "center" "none" "none" "none" "0"
                           "visible" "7")
                 "#list" None None) in
  (isScrollable info, Qred (totalHeight info), Qred (visibleHeight info),
   Qred (top (boundingRect info)), Qred (zIndex info))
  = (true, 1250, 300, 140, 7).
Proof. vm_compute. reflexivity. Qed.

Section ShadowFold.

(** The loop of [parseShadowExtent] from an accumulator on. *)
Abbreviation foldExtents pieces acc :=
  (fold_left
     (fun maxExtent shadow =>
        match ContentScript.shadowExtent shadow with
        | Some extent => Math_max maxExtent extent
        | None => maxExtent
        end) pieces acc).

Lemma shadowExtent_read shadow :
  ContentScript.shadowExtent shadow = option_map extentOf (readShadow shadow).
Proof.
  unfold ContentScript.shadowExtent, readShadow.
  destruct (2 <=? List.length (splitWhitespace (trim shadow)))%nat; reflexivity.
Qed.

Lemma foldExtents_above pieces :
  forall acc, acc <= foldExtents pieces acc.
Proof.
  induction pieces as [|piece pieces IH]; intros acc; simpl.
  - apply Qle_refl.
  - destruct (ContentScript.shadowExtent piece) as [x|]; [|apply IH].
    eapply Qle_trans; [apply Math_max_l|apply IH].
Qed.

Lemma foldExtents_bounds pieces :
  forall acc,
    Forall (fun s => extentOf s <= foldExtents pieces acc) (readShadows pieces).
Proof.
  induction pieces as [|piece pieces IH]; intros acc; simpl.
  - constructor.
  - rewrite shadowExtent_read.
    destruct (readShadow piece) as [s|]; simpl; [|apply IH].
    constructor; [|apply IH].
    eapply Qle_trans; [apply Math_max_r|apply foldExtents_above].
Qed.

Lemma foldExtents_attained pieces :
  forall acc,
    foldExtents pieces acc == acc \/
    Exists (fun s => foldExtents pieces acc == extentOf s) (readShadows pieces).
Proof.
  induction pieces as [|piece pieces IH]; intros acc; simpl.
  - left. reflexivity.
  - rewrite shadowExtent_read.
    destruct (readShadow piece) as [s|]; simpl; [|apply IH].
    destruct (IH (Math_max acc (extentOf s))) as [Heq|Hex].
    + destruct (Math_max_cases acc (extentOf s)) as [[_ Hm]|[_ Hm]].
      * left. rewrite Heq. exact Hm.
      * right. apply Exists_cons_hd. rewrite Heq. exact Hm.
    + right. apply Exists_cons_tl. exact Hex.
Qed.

Lemma extentOf_nonneg s : 0 <= extentOf s.
Proof.
  unfold extentOf.
  pose proof (Math_abs_nonneg (offsetX s)).
  pose proof (Math_abs_nonneg (blurRadius s)).
  pose proof (Math_abs_nonneg (spreadRadius s)).
  pose proof (Math_max_l (Math_abs (offsetX s)) (Math_abs (offsetY s))).
  lra.
Qed.

(** [maxShadowExtent] is the largest extent among the shadows of the two
    values, and 0 when there is none. *)
Lemma maxShadowExtent_is_max box text :
  let e := ContentScript.maxShadowExtent box text in
  let shadows := (shadowsOf box ++ shadowsOf text)%list in
  0 <= e /\
  Forall (fun s => extentOf s <= e) shadows /\
  (e == 0 \/ Exists (fun s => e == extentOf s) shadows).
Proof.
  cbv zeta. unfold ContentScript.maxShadowExtent, shadowsOf,
    ContentScript.parseShadowExtent.
  pose proof (foldExtents_above (split "," box) 0) as Hb0.
  pose proof (foldExtents_bounds (split "," box) 0) as Hb1.
  pose proof (foldExtents_attained (split "," box) 0) as Hb2.
  pose proof (foldExtents_above (split "," text) 0) as Ht0.
  pose proof (foldExtents_bounds (split "," text) 0) as Ht1.
  pose proof (foldExtents_attained (split "," text) 0) as Ht2.
  set (b := foldExtents (split "," box) 0) in *.
  set (t := foldExtents (split "," text) 0) in *.
  assert (Hmb : Math_max 0 b == b)
    by (destruct (Math_max_cases 0 b) as [[? Hm]|[? Hm]]; rewrite Hm; lra).
  destruct (ContentScript.isShadowValue box);
    destruct (ContentScript.isShadowValue text); simpl.
  - destruct (Math_max_cases (Math_max 0 b) t) as [[Hle Hm]|[Hle Hm]].
    + split; [rewrite Hm, Hmb; exact Hb0|]. split.
      * apply Forall_app. split.
        -- eapply Forall_impl; [|exact Hb1]. simpl. intros s Hs.
           rewrite Hm, Hmb. exact Hs.
        -- eapply Forall_impl; [|exact Ht1]. simpl. intros s Hs.
           rewrite Hm. lra.
      * destruct Hb2 as [Hz|Hex]; [left; rewrite Hm, Hmb; exact Hz|].
        right. apply Exists_app. left.
        eapply Exists_impl; [|exact Hex]. simpl. intros s Hs.
        rewrite Hm, Hmb. exact Hs.
    + split; [rewrite Hm; exact Ht0|]. split.
      * apply Forall_app. split.
        -- eapply Forall_impl; [|exact Hb1]. simpl. intros s Hs.
           rewrite Hm. lra.
        -- eapply Forall_impl; [|exact Ht1]. simpl. intros s Hs.
           rewrite Hm. exact Hs.
      * destruct Ht2 as [Hz|Hex]; [left; rewrite Hm; exact Hz|].
        right. apply Exists_app. right.
        eapply Exists_impl; [|exact Hex]. simpl. intros s Hs.
        rewrite Hm. exact Hs.
  - rewrite app_nil_r.
    split; [rewrite Hmb; exact Hb0|]. split.
    + eapply Forall_impl; [|exact Hb1]. simpl. intros s Hs.
      rewrite Hmb. exact Hs.
    + destruct Hb2 as [Hz|Hex]; [left; rewrite Hmb; exact Hz|].
      right. eapply Exists_impl; [|exact Hex]. simpl. intros s Hs.
      rewrite Hmb. exact Hs.
  - assert (Hmt : Math_max 0 t == t)
      by (destruct (Math_max_cases 0 t) as [[? Hm]|[? Hm]]; rewrite Hm; lra).
    split; [rewrite Hmt; exact Ht0|]. split.
    + eapply Forall_impl; [|exact Ht1]. simpl. intros s Hs.
      rewrite Hmt. exact Hs.
    + destruct Ht2 as [Hz|Hex]; [left; rewrite Hmt; exact Hz|].
      right. eapply Exists_impl; [|exact Hex]. simpl. intros s Hs.
      rewrite Hmt. exact Hs.
  - split; [apply Qle_refl|]. split; [constructor|left; reflexivity].
Qed.

End ShadowFold.

Example shadow_strings_read :
  (map showShadow (shadowsOf "5px 5px 10px rgba(0,0,0,0.5)"),
   map showShadow (shadowsOf "1.5px -2.25px 1e1px, 3px 4px"),
   map showShadow (shadowsOf "0 0 10px -5px #333"),
   map showShadow (shadowsOf "none"))
  = ([[5; 5; 10; 0]],
     [[3 # 2; - (9 # 4); 10; 0]; [3; 4; 0; 0]],
     [[0; 0; 10; -5]],
     []).
Proof. vm_compute. reflexivity. Qed.

(** A value with the colour first and commas inside the colour, as a
    computed style is serialised, is cut at those commas: the last piece
    reads as [0.5 5 5 10]. *)
Example shadow_colour_first :
  (split "," "rgba(0, 0, 0, 0.5) 5px 5px 10px 0px",
   map showShadow (shadowsOf "rgba(0, 0, 0, 0.5) 5px 5px 10px 0px"),
   Qred (ContentScript.parseShadowExtent "rgba(0, 0, 0, 0.5) 5px 5px 10px 0px"))
  = (["rgba(0"; " 0"; " 0"; " 0.5) 5px 5px 10px 0px"],
     [[1 # 2; 5; 5; 10]],
     20).
Proof. vm_compute. reflexivity. Qed.

Example shadow_bounds_of_test :
  showRect
    (shadowBounds
       (ContentScript.calculateShadowBounds unscrolledWindow
          (cardElement "5px 5px 10px rgba(0,0,0,0.5)"
                       "2px 2px 4px rgba(0,0,0,0.7)")
          "5px 5px 10px rgba(0,0,0,0.5)" "2px 2px 4px rgba(0,0,0,0.7)"))
  = [85; 85; 230; 130; 315; 215].
Proof. vm_compute. reflexivity. Qed.




(** * Further properties *)

(** ** The planner, continued *)

(** X1.  Whatever the geometry, both planners return a plan that is not
    empty and whose first offset is (0,0): a capture always has a first
    segment, taken at the top. *)
Theorem plan_starts_at_origin (e : ElementInfo) :
  (exists final rest,
      ScreenshotProcessor.calculateScrollSegments e
      = Some (mkScroll 0 0 final :: rest)) /\
  (exists final rest,
      ContentScript.calculateScrollSegments e
      = Some (mkScroll 0 0 final :: rest)).
Proof.
  assert (H : forall factor,
             exists final rest,
               planWith loopFuel factor e = Some (mkScroll 0 0 final :: rest)).
  { intros factor. unfold planWith.
    destruct (negb (isScrollable e)
              || leb_num (totalHeight e) (visibleHeight e)) eqn:Eg; [eauto|].
    apply orb_false_iff in Eg. destruct Eg as [_ Hlt].
    apply leb_num_false in Hlt.
    destruct (scrollLoop_terminates (totalHeight e - visibleHeight e)
                (visibleHeight e * factor) loopFuel 0%nat 0)
      as [l Hl]; [unfold loopFuel; lia|].
    assert (Hext : 0 <= totalHeight e - visibleHeight e) by lra.
    destruct (scrollLoop_head _ _ _ _ _ _ Hext Hl) as [rest ->].
    rewrite Hl. eauto. }
  split; apply H.
Qed.








(** X4.  When the background script takes the long-screenshot path
    ([totalHeight > 1.5 * visibleHeight]), the plan is the single offset 0,
    not marked final, exactly when [totalHeight < 1.8 * visibleHeight]:
    between the two thresholds the long capture takes one segment, at the
    top. *)
Theorem long_path_single_offset (e : ElementInfo) :
  Background.isLongScreenshot e = true ->
  0 < visibleHeight e ->
  (ScreenshotProcessor.calculateScrollSegments e = Some [mkScroll 0 0 false]
   <-> totalHeight e < visibleHeight e * (18 # 10)).
Proof.
  unfold Background.isLongScreenshot. intros Hlong Hv.
  apply andb_true_iff in Hlong. destruct Hlong as [Hs Hgt].
  apply gtb_num_true in Hgt.
  assert (Hlt : visibleHeight e < totalHeight e) by lra.
  unfold ScreenshotProcessor.calculateScrollSegments.
  rewrite (planWith_scrollable _ _ _ Hs Hlt).
  set (T := totalHeight e - visibleHeight e).
  set (step := visibleHeight e * (8 # 10)).
  assert (H0 : leb_num 0 T = true) by (apply leb_num_true; unfold T; lra).
  assert (H1 : geb_num 0 T = false) by (apply geb_num_false; unfold T; lra).
  unfold loopFuel.
  change (scrollLoop 64 T step 0 0)
    with (if leb_num 0 T then
            if geb_num 0 T then Some [mkScroll 0 0 (geb_num 0 T)]
            else if (50 <? 1)%nat then Some [mkScroll 0 0 (geb_num 0 T)]
                 else option_map (cons (mkScroll 0 0 (geb_num 0 T)))
                        (scrollLoop 63 T step 1 (0 + step))
          else Some []).
  rewrite H0, H1. cbn [Nat.ltb Nat.leb].
  change (scrollLoop 63 T step 1 (0 + step))
    with (if leb_num (0 + step) T then
            if geb_num (0 + step) T
            then Some [mkScroll 0 (0 + step) (geb_num (0 + step) T)]
            else if (50 <? 2)%nat
                 then Some [mkScroll 0 (0 + step) (geb_num (0 + step) T)]
                 else option_map
                        (cons (mkScroll 0 (0 + step) (geb_num (0 + step) T)))
                        (scrollLoop 62 T step 2 (0 + step + step))
          else Some []).
  destruct (leb_num (0 + step) T) eqn:E2.
  - apply leb_num_true in E2. split.
    + intros H. exfalso.
      destruct (geb_num (0 + step) T); [discriminate H|].
      cbn [Nat.ltb Nat.leb] in H.
      destruct (scrollLoop 62 T step 2 (0 + step + step)); discriminate H.
    + intros H. exfalso. unfold T, step in *. lra.
  - apply leb_num_false in E2. split; [|reflexivity].
    intros _. unfold T, step in *. lra.
Qed.

Lemma long_path_single_offset_witness :
  Background.isLongScreenshot
    (plainElement "#list" (rectOf 0 0 800 600) true 1000 600) = true /\
  ScreenshotProcessor.calculateScrollSegments
    (plainElement "#list" (rectOf 0 0 800 600) true 1000 600)
  = Some [mkScroll 0 0 false].
Proof.
  split; [reflexivity|].
  apply (long_path_single_offset
           (plainElement "#list" (rectOf 0 0 800 600) true 1000 600)).
  - reflexivity.
  - vm_compute; reflexivity.
  - vm_compute; reflexivity.
Defined.

(** ** The content script, continued *)





(** X7.  The shadow bounds always contain the page rectangle of the
    element: no edge moves inwards, whatever the shadow values are; and
    they are a well-formed rectangle when the client rectangle is. *)
Theorem shadow_bounds_contain_element
        (w : Window) (element : Element) (box text : string) :
  let page := boundingRect (ContentScript.getElementInfo w element) in
  let grown :=
    shadowBounds (ContentScript.calculateShadowBounds w element box text) in
  (left grown <= left page /\ top grown <= top page /\
   right page <= right grown /\ bottom page <= bottom grown /\
   width page <= width grown /\ height page <= height grown) /\
  (wellFormed (el_rect element) -> wellFormed grown).
Proof.
  cbv zeta.
  destruct (maxShadowExtent_is_max box text) as [Hpos _].
  unfold ContentScript.calculateShadowBounds, ContentScript.getElementInfo,
    wellFormed.
  cbn [shadowBounds boundingRect left top right bottom width height].
  set (e := ContentScript.maxShadowExtent box text) in *.
  split; [repeat split; lra|].
  intros [Hr [Hb [Hw Hh]]]. repeat split; lra.
Qed.

Lemma shadow_bounds_contain_element_witness :
  wellFormed (el_rect (cardElement "5px 5px 10px rgba(0,0,0,0.5)" "none")) /\
  wellFormed
    (shadowBounds
       (ContentScript.calculateShadowBounds unscrolledWindow
          (cardElement "5px 5px 10px rgba(0,0,0,0.5)" "none")
          "5px 5px 10px rgba(0,0,0,0.5)" "none")).
Proof.
  assert (Hwf : wellFormed
                  (el_rect (cardElement "5px 5px 10px rgba(0,0,0,0.5)" "none"))).
  { unfold wellFormed. repeat split; vm_compute;
      first [reflexivity | discriminate]. }
  split; [exact Hwf|].
  apply (shadow_bounds_contain_element unscrolledWindow
           (cardElement "5px 5px 10px rgba(0,0,0,0.5)" "none")
           "5px 5px 10px rgba(0,0,0,0.5)" "none").
  exact Hwf.
Defined.

(** X8.  The [ElementInfo] that the content script builds carries its
    optional parts exactly when its flags say so: shadow information when
    [hasShadow], iframe information when [isInIframe], and a transform
    matrix only when [hasTransform]; so the tests [flag && info] of the
    processor never drop information that is there. *)
Theorem analysed_flags_match_optional_parts (w : Window) (element : Element) :
  let info := ContentScript.getElementInfo w element in
  (hasShadow info = true <-> shadowInfo info <> None) /\
  (isInIframe info = true <-> iframeInfo info <> None) /\
  (transformMatrix info <> None -> hasTransform info = true) /\
  (hasShadow info = true ->
   exists si,
     shadowInfo info = Some si /\
     boxShadow si = style_boxShadow (el_styles element) /\
     textShadow si = style_textShadow (el_styles element)).
Proof.
  cbv zeta. unfold ContentScript.getElementInfo.
  cbn [hasShadow shadowInfo isInIframe iframeInfo transformMatrix hasTransform].
  split; [|split; [|split]].
  - destruct (ContentScript.analyzeHasShadow element); split;
      congruence.
  - destruct (el_iframe element); split; congruence.
  - destruct (ContentScript.analyzeHasTransform element); congruence.
  - intros ->. eexists. split; [reflexivity|]. split; reflexivity.
Qed.

Lemma analysed_flags_match_optional_parts_witness :
  exists si,
    shadowInfo (ContentScript.getElementInfo unscrolledWindow
                  (cardElement "5px 5px 10px #000" "none")) = Some si /\
    boxShadow si = "5px 5px 10px #000".
Proof.
  destruct (analysed_flags_match_optional_parts unscrolledWindow
              (cardElement "5px 5px 10px #000" "none"))
    as [_ [_ [_ H]]].
  destruct H as [si [Hsi [Hbox _]]]; [reflexivity|].
  exists si. split; [exact Hsi|exact Hbox].
Defined.

(** X9.  For an element that is not inside an iframe, the crop area that
    the processor computes from the [ElementInfo] is the rectangle that
    [getComplexElementBounds] of the content script gives for the element,
    scaled by the device pixel ratio. *)
Theorem crop_area_is_scaled_complex_bounds
        (w : Window) (element : Element) (dpr : Q) :
  el_iframe element = None ->
  let bounds := ContentScript.getComplexElementBounds w element in
  ScreenshotProcessor.calculateComplexElementCropArea
    (ContentScript.getElementInfo w element) dpr
  = mkCrop (left bounds * dpr) (top bounds * dpr)
           (width bounds * dpr) (height bounds * dpr).
Proof.
  intros Hframe. cbv zeta.
  unfold ScreenshotProcessor.calculateComplexElementCropArea,
    ContentScript.getComplexElementBounds.
  set (info := ContentScript.getElementInfo w element).
  assert (Hif : iframeInfo info = None) by exact Hframe.
  rewrite Hif.
  destruct (transformMatrix info) as [m|]; [|reflexivity].
  destruct (hasTransform info); reflexivity.
Qed.

Lemma crop_area_is_scaled_complex_bounds_witness :
  map Qred
      (let c := ScreenshotProcessor.calculateComplexElementCropArea
                  (ContentScript.getElementInfo unscrolledWindow
                     (cardElement "5px 5px 10px #000" "none")) 2 in
       [crop_x c; crop_y c; crop_width c; crop_height c])
  = [170; 170; 460; 260].
Proof.
  rewrite (crop_area_is_scaled_complex_bounds unscrolledWindow
             (cardElement "5px 5px 10px #000" "none") 2 eq_refl).
  vm_compute. reflexivity.
Defined.

(** ** Cropping, continued *)

(** The adjusted crop fits an image of at least one pixel each way. *)
Lemma adjustCropArea_within (cropArea : CropArea) (imageWidth imageHeight : Q) :
  1 <= imageWidth ->
  1 <= imageHeight ->
  let a := ScreenshotProcessor.adjustCropArea cropArea imageWidth imageHeight in
  0 <= crop_x a /\ 0 <= crop_y a /\
  1 <= crop_width a /\ 1 <= crop_height a /\
  crop_x a + crop_width a <= imageWidth /\
  crop_y a + crop_height a <= imageHeight.
Proof.
  intros Hw Hh. unfold ScreenshotProcessor.adjustCropArea.
  cbn [crop_x crop_y crop_width crop_height].
  repeat split; split_extrema; lra.
Qed.

(** X10.  For an image of at least one pixel each way, the adjusted crop
    area lies within the image and is at least one pixel each way,
    whatever crop was asked for. *)
Theorem adjusted_crop_within_image
        (cropArea : CropArea) (imageWidth imageHeight : Q) :
  1 <= imageWidth ->
  1 <= imageHeight ->
  let a := ScreenshotProcessor.adjustCropArea cropArea imageWidth imageHeight in
  0 <= crop_x a /\ 0 <= crop_y a /\
  1 <= crop_width a /\ 1 <= crop_height a /\
  crop_x a + crop_width a <= imageWidth /\
  crop_y a + crop_height a <= imageHeight.
Proof.
  intros Hw Hh. unfold ScreenshotProcessor.adjustCropArea.
  cbn [crop_x crop_y crop_width crop_height].
  repeat split; split_extrema; lra.
Qed.

Lemma adjusted_crop_within_image_witness :
  let a := ScreenshotProcessor.adjustCropArea (mkCrop (-20) 700 5000 900)
                                              1600 1200 in
  crop_x a + crop_width a <= 1600 /\ crop_y a + crop_height a <= 1200.
Proof.
  destruct (adjusted_crop_within_image (mkCrop (-20) 700 5000 900) 1600 1200)
    as [_ [_ [_ [_ [Hx Hy]]]]].
  - vm_compute; discriminate.
  - vm_compute; discriminate.
  - split; assumption.
Defined.

(** X11.  A crop area that already lies within the image, at least one
    pixel each way, is left as it is; hence adjusting twice is adjusting
    once. *)
Theorem adjust_crop_keeps_inner_crop
        (cropArea : CropArea) (imageWidth imageHeight : Q) :
  1 <= imageWidth ->
  1 <= imageHeight ->
  (0 <= crop_x cropArea -> 0 <= crop_y cropArea ->
   1 <= crop_width cropArea -> 1 <= crop_height cropArea ->
   crop_x cropArea + crop_width cropArea <= imageWidth ->
   crop_y cropArea + crop_height cropArea <= imageHeight ->
   cropEq (ScreenshotProcessor.adjustCropArea cropArea imageWidth imageHeight)
          cropArea) /\
  cropEq (ScreenshotProcessor.adjustCropArea
            (ScreenshotProcessor.adjustCropArea cropArea imageWidth imageHeight)
            imageWidth imageHeight)
         (ScreenshotProcessor.adjustCropArea cropArea imageWidth imageHeight).
Proof.
  intros Hw Hh.
  assert (Hkeep :
            forall c,
              0 <= crop_x c -> 0 <= crop_y c ->
              1 <= crop_width c -> 1 <= crop_height c ->
              crop_x c + crop_width c <= imageWidth ->
              crop_y c + crop_height c <= imageHeight ->
              cropEq (ScreenshotProcessor.adjustCropArea c imageWidth
                                                         imageHeight) c).
  { intros c Hx Hy Hcw Hch Hxw Hyh.
    unfold cropEq, ScreenshotProcessor.adjustCropArea.
    cbn [crop_x crop_y crop_width crop_height].
    repeat split; split_extrema; lra. }
  split; [apply Hkeep|].
  destruct (adjustCropArea_within cropArea imageWidth imageHeight Hw Hh)
    as [Hx [Hy [Hcw [Hch [Hxw Hyh]]]]].
  apply Hkeep; assumption.
Qed.

Lemma adjust_crop_keeps_inner_crop_witness :
  cropEq (ScreenshotProcessor.adjustCropArea (mkCrop 100 50 800 600) 1600 1200)
         (mkCrop 100 50 800 600).
Proof.
  destruct (adjust_crop_keeps_inner_crop (mkCrop 100 50 800 600) 1600 1200)
    as [Hkeep _].
  - vm_compute; discriminate.
  - vm_compute; discriminate.
  - apply Hkeep; vm_compute; discriminate.
Defined.

Lemma min4_spec a b c d :
  let m := ScreenshotProcessor.min4 a b c d in
  m <= a /\ m <= b /\ m <= c /\ m <= d /\
  (m == a \/ m == b \/ m == c \/ m == d).
Proof.
  unfold ScreenshotProcessor.min4. cbv zeta.
  repeat split; split_extrema; lra.
Qed.

Lemma max4_spec a b c d :
  let m := ScreenshotProcessor.max4 a b c d in
  a <= m /\ b <= m /\ c <= m /\ d <= m /\
  (m == a \/ m == b \/ m == c \/ m == d).
Proof.
  unfold ScreenshotProcessor.max4. cbv zeta.
  repeat split; split_extrema; lra.
Qed.

(** X12.  The transformed bounds are a well-formed rectangle that contains
    the image of each of the four corners under the matrix, and each of
    its edges passes through one of them. *)
Theorem transformed_bounds_enclose_corners
        (bounds : DOMRect) (matrix : DOMMatrix) :
  let r := ScreenshotProcessor.calculateTransformedBounds bounds matrix in
  let corners :=
    map (transformPoint matrix)
        [mkPoint (left bounds) (top bounds);
         mkPoint (right bounds) (top bounds);
         mkPoint (right bounds) (bottom bounds);
         mkPoint (left bounds) (bottom bounds)] in
  Forall (fun c => left r <= px c <= right r /\ top r <= py c <= bottom r)
         corners /\
  Exists (fun c => left r == px c) corners /\
  Exists (fun c => right r == px c) corners /\
  Exists (fun c => top r == py c) corners /\
  Exists (fun c => bottom r == py c) corners /\
  wellFormed r /\
  rect_x r = left r /\ rect_y r = top r.
Proof.
  cbv zeta. unfold ScreenshotProcessor.calculateTransformedBounds, wellFormed.
  cbn [left right top bottom width height rect_x rect_y map].
  set (c1 := transformPoint matrix (mkPoint (left bounds) (top bounds))).
  set (c2 := transformPoint matrix (mkPoint (right bounds) (top bounds))).
  set (c3 := transformPoint matrix (mkPoint (right bounds) (bottom bounds))).
  set (c4 := transformPoint matrix (mkPoint (left bounds) (bottom bounds))).
  destruct (min4_spec (px c1) (px c2) (px c3) (px c4))
    as [Hx1 [Hx2 [Hx3 [Hx4 Hxa]]]].
  destruct (max4_spec (px c1) (px c2) (px c3) (px c4))
    as [HX1 [HX2 [HX3 [HX4 HXa]]]].
  destruct (min4_spec (py c1) (py c2) (py c3) (py c4))
    as [Hy1 [Hy2 [Hy3 [Hy4 Hya]]]].
  destruct (max4_spec (py c1) (py c2) (py c3) (py c4))
    as [HY1 [HY2 [HY3 [HY4 HYa]]]].
  assert (Hany : forall (f : Point -> Q) v,
             v == f c1 \/ v == f c2 \/ v == f c3 \/ v == f c4 ->
             Exists (fun c => v == f c) [c1; c2; c3; c4]).
  { intros f v [H|[H|[H|H]]].
    - apply Exists_cons_hd. exact H.
    - apply Exists_cons_tl, Exists_cons_hd. exact H.
    - apply Exists_cons_tl, Exists_cons_tl, Exists_cons_hd. exact H.
    - apply Exists_cons_tl, Exists_cons_tl, Exists_cons_tl, Exists_cons_hd.
      exact H. }
  split; [repeat constructor; assumption|].
  split; [apply (Hany px); exact Hxa|].
  split; [apply (Hany px); exact HXa|].
  split; [apply (Hany py); exact Hya|].
  split; [apply (Hany py); exact HYa|].
  split; [|split; reflexivity].
  repeat split; try ring; lra.
Qed.

(** X13.  Under a translation (and so under the identity matrix) the
    transformed bounds of a well-formed rectangle are the rectangle moved
    by the translation, with its size unchanged. *)
Theorem translated_bounds_are_shifted (bounds : DOMRect) (e f : Q) :
  wellFormed bounds ->
  let r := ScreenshotProcessor.calculateTransformedBounds
             bounds (mkMatrix 1 0 0 1 e f) in
  left r == left bounds + e /\ right r == right bounds + e /\
  top r == top bounds + f /\ bottom r == bottom bounds + f /\
  width r == width bounds /\ height r == height bounds.
Proof.
  intros [Hr [Hb [Hw Hh]]]. cbv zeta.
  unfold ScreenshotProcessor.calculateTransformedBounds,
    ScreenshotProcessor.min4, ScreenshotProcessor.max4, transformPoint.
  cbn [left right top bottom width height px py ma mb mc md me mf].
  repeat split; split_extrema; lra.
Qed.

Lemma translated_bounds_are_shifted_witness :
  wellFormed (rectOf 100 100 200 100) /\
  let r := ScreenshotProcessor.calculateTransformedBounds
             (rectOf 100 100 200 100) (mkMatrix 1 0 0 1 50 0) in
  left r == 150 /\ width r == 200.
Proof.
  assert (Hwf : wellFormed (rectOf 100 100 200 100)).
  { unfold wellFormed. repeat split; vm_compute;
      first [reflexivity | discriminate]. }
  split; [exact Hwf|].
  destruct (translated_bounds_are_shifted (rectOf 100 100 200 100) 50 0 Hwf)
    as [Hl [_ [_ [_ [Hw _]]]]].
  split; [rewrite Hl|rewrite Hw]; vm_compute; reflexivity.
Defined.



(** ** Stitching, continued *)

Section StitchOutcomes.

Variables (host : Host) (segments : list LongScreenshotSegment).
Variables elementWidth dpr : Q.

(** The loop fails only on a segment that does not decode. *)
Lemma stitchLoop_outcomes :
  forall todo i y,
    (forall k, (k < List.length todo)%nat ->
               nth_error todo k = nth_error segments (i + k)) ->
    match ScreenshotProcessor.stitchLoop host segments elementWidth dpr
                                         i todo y with
    | Resolved (ops, _) =>
        Forall (fun s => exists img, loadImage host (dataUrl s) = Some img)
               todo /\
        List.length ops = List.length todo
    | Rejected m =>
        Exists (fun s => loadImage host (dataUrl s) = None) todo /\
        m = "Failed to load image"
    end.
Proof.
  induction todo as [|s rest IH]; intros i y Hsuffix.
  - simpl. split; [constructor|reflexivity].
  - assert (Hs : nth_error segments i = Some s).
    { specialize (Hsuffix 0%nat ltac:(simpl; lia)).
      rewrite Nat.add_0_r in Hsuffix. simpl in Hsuffix. congruence. }
    cbn [ScreenshotProcessor.stitchLoop].
    destruct (loadImage host (dataUrl s)) as [img|] eqn:Himg.
    + destruct (stitchSegment_resolves host segments elementWidth dpr
                  i s img y Hs Himg) as [op [added [Hstep _]]].
      rewrite Hstep.
      assert (Hsuffix' : forall k, (k < List.length rest)%nat ->
                nth_error rest k = nth_error segments (S i + k)).
      { intros k Hk. specialize (Hsuffix (S k) ltac:(simpl; lia)).
        simpl in Hsuffix. rewrite Hsuffix. f_equal. lia. }
      specialize (IH (S i) (y + added) Hsuffix').
      destruct (ScreenshotProcessor.stitchLoop host segments elementWidth dpr
                  (S i) rest (y + added)) as [[ops finalY]|m].
      * destruct IH as [Hall Hlen]. split.
        -- constructor; [eauto|exact Hall].
        -- simpl. congruence.
      * destruct IH as [Hex Hm]. split; [|exact Hm].
        apply Exists_cons_tl. exact Hex.
    + unfold ScreenshotProcessor.stitchSegment. rewrite Himg.
      split; [|reflexivity]. apply Exists_cons_hd. exact Himg.
Qed.

End StitchOutcomes.



Section Telescope.

Variables (host : Host) (segments : list LongScreenshotSegment).
Variables elementWidth dpr : Q.

(** Consecutive segments overlap: the element scrolled on by no more than
    the height the later segment shows of it, and never backwards. *)
Hypothesis chained :
  forall k s p,
    (0 < k)%nat ->
    nth_error segments k = Some s ->
    nth_error segments (k - 1) = Some p ->
    0 <= scroll_y (scrollPosition s) - scroll_y (scrollPosition p)
      <= height (elementRect s).

(** After the first segment every uncut segment adds the distance scrolled
    since the segment before, in device pixels. *)
Lemma stitchLoop_telescopes :
  forall todo i y prev,
    (0 < i)%nat ->
    nth_error segments (i - 1) = Some prev ->
    (forall k, (k < List.length todo)%nat ->
               nth_error todo k = nth_error segments (i + k)) ->
    Forall (uncut host elementWidth dpr) todo ->
    exists ops finalY,
      ScreenshotProcessor.stitchLoop host segments elementWidth dpr i todo y
      = Resolved (ops, finalY) /\
      finalY == y + (scroll_y (scrollPosition (lastSegment prev todo))
                     - scroll_y (scrollPosition prev)) * dpr.
Proof.
  induction todo as [|s rest IH]; intros i y prev Hi Hprev Hsuffix Huncut.
  - exists [], y. split; [reflexivity|]. simpl. ring.
  - assert (Hs : nth_error segments i = Some s).
    { specialize (Hsuffix 0%nat ltac:(simpl; lia)).
      rewrite Nat.add_0_r in Hsuffix. simpl in Hsuffix. congruence. }
    inversion Huncut as [|? ? [img [Himg Hcrop]] Hrest]; subst.
    destruct (stitchSegment_resolves host segments elementWidth dpr
                i s img y Hs Himg)
      as [op [added [Hstep [Hadded [_ [_ [_ [Hdh _]]]]]]]].
    assert (Hsuffix' : forall k, (k < List.length rest)%nat ->
              nth_error rest k = nth_error segments (S i + k)).
    { intros k Hk. specialize (Hsuffix (S k) ltac:(simpl; lia)).
      simpl in Hsuffix. rewrite Hsuffix. f_equal. lia. }
    assert (Hprev' : nth_error segments (S i - 1) = Some s).
    { replace (S i - 1)%nat with i by lia. exact Hs. }
    destruct (IH (S i) (y + added) s ltac:(lia) Hprev' Hsuffix' Hrest)
      as [ops [finalY [Hloop Hfinal]]].
    exists (op :: ops), finalY. split.
    + cbn [ScreenshotProcessor.stitchLoop]. rewrite Hstep, Hloop. reflexivity.
    + cbn [lastSegment fold_left]. fold (lastSegment s rest).
      rewrite Hfinal, Hadded, Hdh. unfold contributedHeight, overlapOf.
      rewrite (calculateOverlapHeight_defined segments i dpr s prev Hi Hs Hprev).
      cbn [orZero]. rewrite Hcrop.
      pose proof (chained i s prev Hi Hs Hprev) as [Hlo Hhi].
      assert (Hmax : Math_max 0 (height (elementRect s)
                                 - (scroll_y (scrollPosition s)
                                    - scroll_y (scrollPosition prev)))
                     == height (elementRect s)
                        - (scroll_y (scrollPosition s)
                           - scroll_y (scrollPosition prev))).
      { split_extrema; lra. }
      rewrite Hmax. ring.
Qed.

End Telescope.

(** X16.  When no crop is cut by the image and each segment was scrolled on
    by at most the height it shows, the heights drawn telescope: after the
    loop the write offset is the height of the first segment plus the
    distance scrolled between the first and the last segment, in device
    pixels, however many segments lie between. *)
Theorem stitched_height_telescopes
        (host : Host) (first : LongScreenshotSegment)
        (rest : list LongScreenshotSegment) (elementWidth dpr : Q) :
  Forall (uncut host elementWidth dpr) (first :: rest) ->
  (forall k s p,
      (0 < k)%nat ->
      nth_error (first :: rest) k = Some s ->
      nth_error (first :: rest) (k - 1) = Some p ->
      0 <= scroll_y (scrollPosition s) - scroll_y (scrollPosition p)
        <= height (elementRect s)) ->
  exists ops finalY,
    ScreenshotProcessor.stitchLoop host (first :: rest) elementWidth dpr
                                   0 (first :: rest) 0
    = Resolved (ops, finalY) /\
    finalY == (height (elementRect first)
               + scroll_y (scrollPosition (lastSegment first rest))
               - scroll_y (scrollPosition first)) * dpr.
Proof.
  intros Huncut Hchain.
  inversion Huncut as [|? ? [img [Himg Hcrop]] Hrest]; subst.
  destruct (stitchSegment_resolves host (first :: rest) elementWidth dpr
              0 first img 0 eq_refl Himg)
    as [op [added [Hstep [Hadded [_ [_ [_ [Hdh _]]]]]]]].
  destruct (stitchLoop_telescopes host (first :: rest) elementWidth dpr
              Hchain rest 1 (0 + added) first ltac:(lia) eq_refl
              (fun k _ => eq_refl) Hrest)
    as [ops [finalY [Hloop Hfinal]]].
  exists (op :: ops), finalY. split.
  - cbn [ScreenshotProcessor.stitchLoop]. rewrite Hstep, Hloop. reflexivity.
  - rewrite Hfinal, Hadded, Hdh. unfold contributedHeight, overlapOf.
    cbn [ScreenshotProcessor.calculateOverlapHeight Nat.eqb orZero].
    rewrite Hcrop. ring.
Qed.

Lemma plannedSegments_uncut :
  Forall (uncut (uniformHost 1600 1200) (800 * 2) 2) plannedSegments.
Proof.
  repeat constructor;
    (exists (mkImage 1600 1200); split; [reflexivity|vm_compute; reflexivity]).
Defined.

Lemma plannedSegments_chained :
  forall k s p,
    (0 < k)%nat ->
    nth_error plannedSegments k = Some s ->
    nth_error plannedSegments (k - 1) = Some p ->
    0 <= scroll_y (scrollPosition s) - scroll_y (scrollPosition p)
      <= height (elementRect s).
Proof.
  intros k s p Hk Hs Hp.
  destruct k as [|[|[|[|k]]]]; [lia| | | |];
    try (injection Hs as <-; injection Hp as <-;
         split; vm_compute; discriminate).
  destruct k; discriminate Hs.
Defined.

Lemma stitched_height_telescopes_witness :
  exists ops finalY,
    ScreenshotProcessor.stitchLoop (uniformHost 1600 1200) plannedSegments
                                   (800 * 2) 2 0 plannedSegments 0
    = Resolved (ops, finalY) /\
    finalY == (600 + (600 * (8 # 10) + 600 * (8 # 10) + 600 * (8 # 10)) - 0)
              * 2.
Proof.
  exact (stitched_height_telescopes
           (uniformHost 1600 1200)
           (segmentAt shot 0 0 false (rectOf 0 0 800 600))
           (tl plannedSegments) (800 * 2) 2
           plannedSegments_uncut plannedSegments_chained).
Defined.




(** ** The orchestration, continued *)

Section CaptureLoop.

Variables (host : TabHost) (selector : string).

(** One run of the loop body, spelled out. *)
Lemma captureSegments_cons i pos rest w :
  ScreenshotProcessor.captureSegments host selector i (pos :: rest) w
  = match sendMessageOutcome host (sends w) with
    | Some m =>
        (Rejected m,
         mkWorld (world_tab w) (S (sends w)) (captures w) (measures w))
    | None =>
        let tab1 :=
          ContentScript.handleMessage
            (world_tab w) (SCROLL_TO_POSITION selector (scroll_y pos)) in
        let w1 := mkWorld tab1 (S (sends w)) (S (captures w)) (measures w) in
        let w2 :=
          mkWorld tab1 (S (sends w)) (S (captures w)) (S (measures w)) in
        match rethrow "Screenshot capture failed: "
                match captureVisibleTab host (captures w) with
                | Resolved url =>
                    if String.eqb url ""
                    then Rejected "Failed to capture screenshot"
                    else Resolved url
                | Rejected m => Rejected m
                end with
        | Rejected m => (Rejected m, w1)
        | Resolved url =>
            match measureRect host (measures w) with
            | Rejected m => (Rejected m, w2)
            | Resolved rect =>
                match ScreenshotProcessor.captureSegments
                        host selector (S i) rest w2 with
                | (Rejected m, w3) => (Rejected m, w3)
                | (Resolved segments, w3) =>
                    (Resolved (mkSegment url pos i rect :: segments), w3)
                end
            end
        end
    end.
Proof.
  cbn [ScreenshotProcessor.captureSegments].
  unfold bind, sendMessage, ScreenshotProcessor.captureFullPage,
    ScreenshotProcessor.getElementRectAfterScroll, ret.
  destruct (sendMessageOutcome host (sends w)); [reflexivity|].
  cbn [world_tab sends captures measures]. cbv zeta.
  destruct (rethrow _ _); [|reflexivity].
  destruct (measureRect host (measures w)); reflexivity.
Qed.

(** A resolved loop made one call of each kind per planned offset, and its
    [k]-th segment is built from the [k]-th call of each kind. *)
Lemma captureSegments_resolved :
  forall plan i w segments w',
    ScreenshotProcessor.captureSegments host selector i plan w
    = (Resolved segments, w') ->
    sends w' = (sends w + List.length plan)%nat /\
    captures w' = (captures w + List.length plan)%nat /\
    measures w' = (measures w + List.length plan)%nat /\
    List.length segments = List.length plan /\
    forall k s,
      nth_error segments k = Some s ->
      segmentIndex s = (i + k)%nat /\
      nth_error plan k = Some (scrollPosition s) /\
      dataUrl s <> "" /\
      captureVisibleTab host (captures w + k) = Resolved (dataUrl s) /\
      measureRect host (measures w + k) = Resolved (elementRect s).
Proof.
  induction plan as [|pos rest IH]; intros i w segments w' Hrun.
  - cbn in Hrun. inversion Hrun; subst. cbn [List.length].
    repeat split; try lia. 1-5: destruct k; discriminate.
  - rewrite captureSegments_cons in Hrun.
    destruct (sendMessageOutcome host (sends w)); [discriminate|].
    cbv zeta in Hrun.
    destruct (captureVisibleTab host (captures w)) as [url|m] eqn:Hcap;
      [|discriminate].
    destruct (String.eqb_spec url "") as [->|Hurl]; [discriminate|].
    cbn [rethrow] in Hrun.
    destruct (measureRect host (measures w)) as [rect|m] eqn:Hrect;
      [|discriminate].
    destruct (ScreenshotProcessor.captureSegments host selector (S i) rest _)
      as [[segs|m] w3] eqn:Hrest; [|discriminate].
    inversion Hrun; subst.
    destruct (IH _ _ _ _ Hrest) as [Hs [Hc [Hm [Hlen Hk]]]].
    cbn [sends captures measures] in Hs, Hc, Hm, Hk.
    cbn [List.length].
    split; [lia|]. split; [lia|]. split; [lia|]. split; [lia|].
    intros k s Hnth. destruct k as [|k].
    + inversion Hnth; subst. cbn.
      rewrite !Nat.add_0_r. auto.
    + cbn [nth_error] in Hnth |- *.
      destruct (Hk k s Hnth) as [Hi [Hp [Hu [Hcv Hmr]]]].
      replace (i + S k)%nat with (S i + k)%nat by lia.
      replace (captures w + S k)%nat with (S (captures w) + k)%nat by lia.
      replace (measures w + S k)%nat with (S (measures w) + k)%nat by lia.
      auto.
Qed.

(** A rejected loop throws what its last call threw: the rejection of
    [sendMessage] or of the measuring script as it is, that of the capture
    behind the prefix of [captureFullPage]. *)
Lemma captureSegments_rejected :
  forall plan i w m w',
    ScreenshotProcessor.captureSegments host selector i plan w
    = (Rejected m, w') ->
    ((sends w < sends w')%nat /\
     sendMessageOutcome host (sends w' - 1) = Some m) \/
    ((captures w < captures w')%nat /\
     exists cause,
       m = "Screenshot capture failed: " ++ cause /\
       (captureVisibleTab host (captures w' - 1) = Rejected cause \/
        (captureVisibleTab host (captures w' - 1) = Resolved "" /\
         cause = "Failed to capture screenshot"))) \/
    ((measures w < measures w')%nat /\
     measureRect host (measures w' - 1) = Rejected m).
Proof.
  induction plan as [|pos rest IH]; intros i w m w' Hrun.
  - discriminate Hrun.
  - rewrite captureSegments_cons in Hrun.
    destruct (sendMessageOutcome host (sends w)) as [m0|] eqn:Hsend.
    { inversion Hrun; subst. left. cbn [sends].
      replace (S (sends w) - 1)%nat with (sends w) by lia.
      split; [lia|exact Hsend]. }
    cbv zeta in Hrun.
    destruct (captureVisibleTab host (captures w)) as [url|m0] eqn:Hcap.
    2:{ cbn [rethrow] in Hrun. inversion Hrun; subst.
        right; left. cbn [captures].
        replace (S (captures w) - 1)%nat with (captures w) by lia.
        split; [lia|]. exists m0. auto. }
    destruct (String.eqb_spec url "") as [->|Hurl].
    { cbn [rethrow] in Hrun. inversion Hrun; subst.
      right; left. cbn [captures].
      replace (S (captures w) - 1)%nat with (captures w) by lia.
      split; [lia|]. exists "Failed to capture screenshot". auto. }
    cbn [rethrow] in Hrun.
    destruct (measureRect host (measures w)) as [rect|m0] eqn:Hrect.
    2:{ inversion Hrun; subst. right; right. cbn [measures].
        replace (S (measures w) - 1)%nat with (measures w) by lia.
        split; [lia|exact Hrect]. }
    destruct (ScreenshotProcessor.captureSegments host selector (S i) rest _)
      as [[segs|m0] w3] eqn:Hrest; [discriminate|].
    inversion Hrun; subst.
    destruct (IH _ _ _ _ Hrest) as [[Hlt H]|[[Hlt H]|[Hlt H]]];
      cbn [sends captures measures] in Hlt.
    + left. split; [lia|exact H].
    + right; left. split; [lia|exact H].
    + right; right. split; [lia|exact H].
Qed.

(** When no call fails the loop resolves. *)
Lemma captureSegments_progress :
  (forall k, sendMessageOutcome host k = None) ->
  (forall k, exists url,
        captureVisibleTab host k = Resolved url /\ url <> "") ->
  (forall k, exists rect, measureRect host k = Resolved rect) ->
  forall plan i w,
  exists segments w',
    ScreenshotProcessor.captureSegments host selector i plan w
    = (Resolved segments, w').
Proof.
  intros Hsend Hcap Hrect.
  induction plan as [|pos rest IH]; intros i w.
  - eexists; eexists; reflexivity.
  - rewrite captureSegments_cons. rewrite Hsend. cbv zeta.
    destruct (Hcap (captures w)) as [url [-> Hurl]].
    destruct (String.eqb_spec url "") as [->|_]; [congruence|].
    cbn [rethrow].
    destruct (Hrect (measures w)) as [rect ->].
    match goal with
    | |- context [ScreenshotProcessor.captureSegments host selector
                    (S i) rest ?w2] =>
        destruct (IH (S i) w2) as [segs [w3 ->]]
    end.
    eexists; eexists; reflexivity.
Qed.

End CaptureLoop.

(** X18.  A long capture that resolves made one capture and one measurement
    per segment and two more messages than segments (the resets before and
    after).  Its [k]-th segment carries the index [k], the [k]-th planned
    position, the data URL of the [k]-th capture, which is not empty, and
    the rectangle of the [k]-th measurement. *)
Theorem long_capture_segments_in_call_order
        (host : TabHost) (e : ElementInfo) (w w' : World)
        (segments : list LongScreenshotSegment) (total : Q) :
  ScreenshotProcessor.captureLongScreenshot host e w
  = (Resolved (segments, total), w') ->
  sends w' = (sends w + List.length segments + 2)%nat /\
  captures w' = (captures w + List.length segments)%nat /\
  measures w' = (measures w + List.length segments)%nat /\
  forall k s,
    nth_error segments k = Some s ->
    segmentIndex s = k /\
    dataUrl s <> "" /\
    captureVisibleTab host (captures w + k) = Resolved (dataUrl s) /\
    measureRect host (measures w + k) = Resolved (elementRect s) /\
    exists plan,
      ScreenshotProcessor.calculateScrollSegments e = Some plan /\
      nth_error plan k = Some (scrollPosition s).
Proof.
  unfold ScreenshotProcessor.captureLongScreenshot, tryRethrow.
  destruct (ScreenshotProcessor.calculateScrollSegments e) as [plan|] eqn:Hplan;
    [|discriminate].
  unfold bind at 1. unfold sendMessage at 1.
  destruct (sendMessageOutcome host (sends w)); [discriminate|].
  unfold bind at 1.
  destruct (ScreenshotProcessor.captureSegments host (selector e) 0 plan _)
    as [[segs|m] w1] eqn:Hloop; [|discriminate].
  unfold bind at 1. unfold sendMessage at 1.
  destruct (sendMessageOutcome host (sends w1)); [discriminate|].
  unfold ret. cbn [rethrow]. intros Hrun. inversion Hrun; subst.
  destruct (captureSegments_resolved _ _ _ _ _ _ _ Hloop)
    as [Hs [Hc [Hm [Hlen Hk]]]].
  cbn [sends captures measures] in Hs, Hc, Hm, Hk |- *.
  split; [lia|]. split; [lia|]. split; [lia|].
  intros k s Hnth. destruct (Hk k s Hnth) as [Hi [Hp [Hu [Hcv Hmr]]]].
  repeat split; try assumption. exists plan. auto.
Qed.

Lemma long_capture_segments_in_call_order_witness :
  match ScreenshotProcessor.captureLongScreenshot reliableHost longElement
                                                  (freshWorld 1800) with
  | (Resolved (segments, _), w') =>
      sends w' = (0 + List.length segments + 2)%nat
  | (Rejected _, _) => False
  end.
Proof.
  destruct (ScreenshotProcessor.captureLongScreenshot
              reliableHost longElement (freshWorld 1800))
    as [[[segments total]|m] w'] eqn:Hrun.
  - exact (proj1 (long_capture_segments_in_call_order
                    reliableHost longElement (freshWorld 1800) w'
                    segments total Hrun)).
  - vm_compute in Hrun. discriminate Hrun.
Defined.

(** X19.  A long capture that rejects throws, behind its prefix, what the
    last external call made has thrown: the rejection of
    [chrome.tabs.sendMessage] or of the measuring script as it is; that of
    [captureVisibleTab], or "Failed to capture screenshot" for an empty
    data URL, behind the prefix of [captureFullPage]. *)
Theorem long_capture_failure_causes
        (host : TabHost) (e : ElementInfo) (w w' : World) (m : string) :
  ScreenshotProcessor.captureLongScreenshot host e w = (Rejected m, w') ->
  exists cause,
    m = "Long screenshot capture failed: " ++ cause /\
    (((sends w < sends w')%nat /\
      sendMessageOutcome host (sends w' - 1) = Some cause) \/
     ((captures w < captures w')%nat /\
      exists inner,
        cause = "Screenshot capture failed: " ++ inner /\
        (captureVisibleTab host (captures w' - 1) = Rejected inner \/
         (captureVisibleTab host (captures w' - 1) = Resolved "" /\
          inner = "Failed to capture screenshot"))) \/
     ((measures w < measures w')%nat /\
      measureRect host (measures w' - 1) = Rejected cause)).
Proof.
  unfold ScreenshotProcessor.captureLongScreenshot, tryRethrow.
  destruct (planWith_returns (8 # 10) e) as [plan Hplan].
  fold (ScreenshotProcessor.calculateScrollSegments e) in Hplan.
  rewrite Hplan.
  unfold bind at 1. unfold sendMessage at 1.
  destruct (sendMessageOutcome host (sends w)) as [m0|] eqn:Hsend.
  { cbn [rethrow]. intros Hrun. inversion Hrun; subst.
    exists m0. split; [reflexivity|]. left. cbn [sends].
    replace (S (sends w) - 1)%nat with (sends w) by lia.
    split; [lia|exact Hsend]. }
  unfold bind at 1.
  destruct (ScreenshotProcessor.captureSegments host (selector e) 0 plan _)
    as [[segs|m0] w1] eqn:Hloop.
  - unfold bind at 1. unfold sendMessage at 1.
    destruct (sendMessageOutcome host (sends w1)) as [m0|] eqn:Hsend2;
      [|discriminate].
    cbn [rethrow]. intros Hrun. inversion Hrun; subst.
    exists m0. split; [reflexivity|]. left. cbn [sends].
    replace (S (sends w1) - 1)%nat with (sends w1) by lia.
    split; [|exact Hsend2].
    destruct (captureSegments_resolved _ _ _ _ _ _ _ Hloop) as [Hs _].
    cbn [sends] in Hs. lia.
  - cbn [rethrow]. intros Hrun. inversion Hrun; subst.
    exists m0. split; [reflexivity|].
    destruct (captureSegments_rejected _ _ _ _ _ _ _ Hloop)
      as [[Hlt H]|[[Hlt H]|[Hlt H]]];
      cbn [sends captures measures] in Hlt.
    + left. split; [lia|exact H].
    + right; left. split; [lia|exact H].
    + right; right. split; [lia|exact H].
Qed.

Lemma long_capture_failure_causes_witness :
  match ScreenshotProcessor.captureLongScreenshot
          secondCaptureFails longElement (freshWorld 1800) with
  | (Rejected m, _) =>
      exists cause, m = "Long screenshot capture failed: " ++ cause
  | (Resolved _, _) => False
  end.
Proof.
  destruct (ScreenshotProcessor.captureLongScreenshot
              secondCaptureFails longElement (freshWorld 1800))
    as [[r|m] w'] eqn:Hrun.
  - vm_compute in Hrun. discriminate Hrun.
  - destruct (long_capture_failure_causes
                secondCaptureFails longElement (freshWorld 1800) w' m Hrun)
      as [cause [Hm _]].
    exists cause. exact Hm.
Defined.

(** X20.  When no external call fails, that is every message is delivered,
    every capture gives a data URL that is not empty and every measurement
    gives a rectangle, the long capture resolves, with the total height of
    the element. *)
Theorem long_capture_resolves_when_calls_succeed
        (host : TabHost) (e : ElementInfo) (w : World) :
  (forall k, sendMessageOutcome host k = None) ->
  (forall k, exists url,
        captureVisibleTab host k = Resolved url /\ url <> "") ->
  (forall k, exists rect, measureRect host k = Resolved rect) ->
  exists segments w',
    ScreenshotProcessor.captureLongScreenshot host e w
    = (Resolved (segments, totalHeight e), w').
Proof.
  intros Hsend Hcap Hrect.
  unfold ScreenshotProcessor.captureLongScreenshot, tryRethrow.
  destruct (planWith_returns (8 # 10) e) as [plan Hplan].
  fold (ScreenshotProcessor.calculateScrollSegments e) in Hplan.
  rewrite Hplan.
  unfold bind at 1. unfold sendMessage at 1. rewrite Hsend.
  unfold bind at 1.
  match goal with
  | |- context [ScreenshotProcessor.captureSegments host (selector e) 0 plan
                  ?w0] =>
      destruct (captureSegments_progress host (selector e) Hsend Hcap Hrect
                  plan 0%nat w0) as [segs [w1 ->]]
  end.
  unfold bind at 1. unfold sendMessage at 1. rewrite Hsend.
  unfold ret. cbn [rethrow]. eexists; eexists; reflexivity.
Qed.

Lemma long_capture_resolves_when_calls_succeed_witness :
  exists segments w',
    ScreenshotProcessor.captureLongScreenshot reliableHost longElement
                                              (freshWorld 1800)
    = (Resolved (segments, totalHeight longElement), w').
Proof.
  apply (long_capture_resolves_when_calls_succeed
           reliableHost longElement (freshWorld 1800)).
  - intros k. reflexivity.
  - intros k. exists shot. split; [reflexivity|discriminate].
  - intros k. exists (rectOf 0 0 800 600). reflexivity.
Defined.

(** ** Retries, continued *)

(** No fallback strategy is implemented: whatever the options are,
    [attemptFallback] throws. *)
Lemma attemptFallback_fails {T} (errorInfo : ErrorInfo)
      (fallbackOptions : FallbackOptions) :
  @ErrorHandler.attemptFallback T errorInfo fallbackOptions
  = Rejected ("All fallback strategies failed for error: "
              ++ chineseMessage errorInfo).
Proof.
  unfold ErrorHandler.attemptFallback, ErrorHandler.getFallbackStrategies.
  destruct (code errorInfo);
    destruct (enableSimpleScreenshot fallbackOptions);
    destruct (enableManualSave fallbackOptions);
    destruct (enableQualityReduction fallbackOptions);
    destruct (enableFormatFallback fallbackOptions); reflexivity.
Qed.

(** [handleError] in terms of how its loop was left. *)
Lemma handleError_by_exit {T} (operation : nat -> Result T) ctx rc fo :
  forall exit n waited,
    ErrorHandler.retryLoop (ErrorHandler.mergeRetryConfig rc) operation
      (maxAttempts (ErrorHandler.mergeRetryConfig rc)) 0 None
    = (exit, n, waited) ->
    ErrorHandler.handleError operation ctx rc fo
    = mkRun match exit with
            | Returned result => Resolved result
            | Exited (Some lastError) => Rejected (rejectionFor lastError)
            | Exited None => Rejected (ctx ++ " - Unknown error occurred")
            end n waited.
Proof.
  intros exit n waited Hloop. unfold ErrorHandler.handleError.
  rewrite Hloop. destruct exit as [v|[e|]]; try reflexivity.
  unfold rejectionFor.
  destruct (fallbackAvailable
              (ErrorHandler.createErrorInfo (ErrorHandler.classifyError e) None));
    [rewrite attemptFallback_fails|]; reflexivity.
Qed.

Section RetryExit.

Context {T : Type}.
Variables (config : RetryConfig) (operation : nat -> Result T).

Abbreviation retryableMessage m :=
  (retryable (ErrorHandler.ERROR_DEFINITIONS (ErrorHandler.classifyError m))).

(** How the loop is left: with the result of its last call, or with the
    error of its last call, which was not retryable or was the last call
    allowed; every call before the last failed with a retryable error. *)
Lemma retryLoop_exit :
  forall remaining attempt lastError exit n waited,
    (remaining + attempt = maxAttempts config)%nat ->
    ErrorHandler.retryLoop config operation remaining attempt lastError
    = (exit, n, waited) ->
    (attempt <= n <= maxAttempts config)%nat /\
    (forall k, (attempt <= k)%nat -> (S k < n)%nat ->
               exists m, operation k = Rejected m /\
                         retryableMessage m = true) /\
    match exit with
    | Returned v => (attempt < n)%nat /\ operation (n - 1)%nat = Resolved v
    | Exited last =>
        (remaining = 0%nat /\ n = attempt /\ last = lastError) \/
        (exists m,
            last = Some m /\ (attempt < n)%nat /\
            operation (n - 1)%nat = Rejected m /\
            (retryableMessage m = false \/ n = maxAttempts config))
    end.
Proof.
  induction remaining as [|remaining IH];
    intros attempt lastError exit n waited Hinv Hrun.
  - cbn in Hrun. inversion Hrun; subst.
    split; [lia|]. split; [intros; lia|]. left. auto.
  - cbn [ErrorHandler.retryLoop] in Hrun.
    destruct (operation attempt) as [v|m] eqn:Hop.
    + inversion Hrun; subst.
      split; [lia|]. split; [intros; lia|].
      replace (S attempt - 1)%nat with attempt by lia. split; [lia|exact Hop].
    + cbv zeta in Hrun.
      change (retryable (ErrorHandler.createErrorInfo
                           (ErrorHandler.classifyError m) None))
        with (retryableMessage m) in Hrun.
      destruct (retryableMessage m) eqn:Hretry; cbn [negb orb] in Hrun.
      * destruct (Nat.leb_spec (maxAttempts config) (S attempt))
          as [Hlast|Hmore].
        -- inversion Hrun; subst.
           split; [lia|]. split; [intros; lia|]. right. exists m.
           replace (S attempt - 1)%nat with attempt by lia.
           split; [reflexivity|]. split; [lia|]. split; [exact Hop|].
           right. lia.
        -- destruct (ErrorHandler.retryLoop config operation remaining
                       (S attempt) (Some m)) as [[exit' n'] waited'] eqn:Hrest.
           inversion Hrun; subst.
           assert (Hinv' : (remaining + S attempt = maxAttempts config)%nat)
             by lia.
           destruct (IH _ _ _ _ _ Hinv' Hrest) as [Hn [Hbefore Hexit]].
           split; [lia|]. split.
           ++ intros k Hk Hkn.
              destruct (Nat.eq_dec k attempt) as [->|Hne];
                [exists m; auto|apply Hbefore; lia].
           ++ destruct exit as [v|last].
              ** destruct Hexit as [Hlt Hv]. split; [lia|exact Hv].
              ** right. destruct Hexit as [[Hz _]|[m' [Hl [Hlt [Hm' Hwhy]]]]];
                   [lia|].
                 exists m'. split; [exact Hl|]. split; [lia|].
                 split; [exact Hm'|exact Hwhy].
      * inversion Hrun; subst.
        split; [lia|]. split; [intros; lia|]. right. exists m.
        replace (S attempt - 1)%nat with attempt by lia.
        split; [reflexivity|]. split; [lia|]. split; [exact Hop|].
        left. exact Hretry.
Qed.

(** As long as the calls fail with retryable errors and attempts are left,
    the loop goes on: it is left as it is left from the first call that
    does not, or from the last call allowed. *)
Lemma retryLoop_skips :
  forall k remaining attempt lastError,
    (remaining + attempt = maxAttempts config)%nat ->
    (attempt + k < maxAttempts config)%nat ->
    (forall j, (j < k)%nat ->
               exists m, operation (attempt + j)%nat = Rejected m /\
                         retryableMessage m = true) ->
    exists lastError' waited,
      List.length waited = k /\
      ErrorHandler.retryLoop config operation remaining attempt lastError
      = (let '(exit, n, waited') :=
           ErrorHandler.retryLoop config operation (remaining - k)
                                  (attempt + k) lastError' in
         (exit, n, (waited ++ waited')%list)).
Proof.
  induction k as [|k IH]; intros remaining attempt lastError Hinv Hleft Hfail.
  - exists lastError, []. split; [reflexivity|].
    rewrite Nat.sub_0_r, Nat.add_0_r.
    destruct (ErrorHandler.retryLoop config operation remaining attempt
                                     lastError) as [[exit n] waited'].
    reflexivity.
  - destruct remaining as [|remaining]; [lia|].
    destruct (Hfail 0%nat ltac:(lia)) as [m [Hop Hretry]].
    rewrite Nat.add_0_r in Hop.
    assert (Hinv' : (remaining + S attempt = maxAttempts config)%nat) by lia.
    assert (Hleft' : (S attempt + k < maxAttempts config)%nat) by lia.
    destruct (IH remaining (S attempt) (Some m) Hinv' Hleft')
      as [lastError' [waited [Hlen Hrest]]].
    { intros j Hj. destruct (Hfail (S j) ltac:(lia)) as [m' Hm'].
      exists m'. replace (S attempt + j)%nat with (attempt + S j)%nat by lia.
      exact Hm'. }
    exists lastError',
      (delayMs config
       * Math_pow (backoffMultiplier config) (Z.of_nat (S attempt) - 1)
       :: waited).
    split; [cbn [List.length]; lia|].
    cbn [ErrorHandler.retryLoop]. rewrite Hop. cbv zeta.
    change (retryable (ErrorHandler.createErrorInfo
                         (ErrorHandler.classifyError m) None))
      with (retryableMessage m).
    rewrite Hretry. cbn [negb orb].
    destruct (Nat.leb_spec (maxAttempts config) (S attempt)) as [Hlast|_];
      [lia|].
    rewrite Hrest.
    replace (S remaining - S k)%nat with (remaining - k)%nat by lia.
    replace (attempt + S k)%nat with (S attempt + k)%nat by lia.
    destruct (ErrorHandler.retryLoop config operation (remaining - k)
                                     (S attempt + k) lastError')
      as [[exit n] waited'].
    reflexivity.
Qed.

(** The list [retryableErrors] of the configuration is not read. *)
Lemma retryLoop_ignores_retryableErrors (errors : list ScreenshotError) :
  forall remaining attempt lastError,
    ErrorHandler.retryLoop
      (mkRetryConfig (maxAttempts config) (delayMs config)
                     (backoffMultiplier config) errors)
      operation remaining attempt lastError
    = ErrorHandler.retryLoop config operation remaining attempt lastError.
Proof.
  induction remaining as [|remaining IH]; intros attempt lastError;
    [reflexivity|].
  cbn [ErrorHandler.retryLoop].
  destruct (operation attempt) as [v|m]; [reflexivity|].
  cbv zeta. cbn [maxAttempts delayMs backoffMultiplier].
  destruct (negb _ || _); [reflexivity|].
  rewrite IH. reflexivity.
Qed.

End RetryExit.

(** What [handleError] throws, and when. *)
Lemma handleError_rejected {T} (operation : nat -> Result T) ctx rc fo msg :
  let config := ErrorHandler.mergeRetryConfig rc in
  let run := ErrorHandler.handleError operation ctx rc fo in
  outcome run = Rejected msg ->
  (maxAttempts config = 0%nat /\ calls run = 0%nat /\
   msg = ctx ++ " - Unknown error occurred") \/
  (exists lastError,
      (0 < calls run)%nat /\
      operation (calls run - 1)%nat = Rejected lastError /\
      (retryable (ErrorHandler.ERROR_DEFINITIONS
                    (ErrorHandler.classifyError lastError)) = false \/
       calls run = maxAttempts config) /\
      msg = rejectionFor lastError).
Proof.
  cbv zeta.
  destruct (ErrorHandler.retryLoop (ErrorHandler.mergeRetryConfig rc) operation
              (maxAttempts (ErrorHandler.mergeRetryConfig rc)) 0 None)
    as [[exit n] waited] eqn:Hloop.
  rewrite (handleError_by_exit operation ctx rc fo _ _ _ Hloop).
  cbn [outcome calls].
  destruct (retryLoop_exit _ operation _ _ _ _ _ _
              (Nat.add_0_r _) Hloop) as [Hn [_ Hexit]].
  destruct exit as [v|last]; [discriminate|].
  destruct Hexit as [[Hz [Hn0 Hlast]]|[m [Hlast [Hlt [Hop Hwhy]]]]].
  - subst. intros H. inversion H. left. auto.
  - subst. intros H. inversion H. right. exists m. auto.
Qed.

(** X21.  [handleError] resolves with [v] exactly when some call of the
    operation within the attempts allowed resolves with [v] and every call
    before it fails with an error classified as retryable.  It then made
    that many calls and no more; in particular no fallback ever produces a
    result. *)
Theorem handle_error_resolves_iff_a_call_resolves
        {T : Type} (operation : nat -> Result T) (errorContext : string)
        (retryConfig : PartialRetryConfig)
        (fallbackOptions : PartialFallbackOptions) (v : T) :
  let config := ErrorHandler.mergeRetryConfig retryConfig in
  let run := ErrorHandler.handleError operation errorContext retryConfig
                                      fallbackOptions in
  outcome run = Resolved v <->
  exists k,
    (k < maxAttempts config)%nat /\
    operation k = Resolved v /\
    failsRetryablyBefore operation k /\
    calls run = S k.
Proof.
  cbv zeta. split.
  - destruct (ErrorHandler.retryLoop (ErrorHandler.mergeRetryConfig retryConfig)
                operation
                (maxAttempts (ErrorHandler.mergeRetryConfig retryConfig)) 0 None)
      as [[exit n] waited] eqn:Hloop.
    rewrite (handleError_by_exit operation errorContext retryConfig
                                 fallbackOptions _ _ _ Hloop).
    cbn [outcome calls].
    destruct (retryLoop_exit _ operation _ _ _ _ _ _
                (Nat.add_0_r _) Hloop) as [Hn [Hbefore Hexit]].
    destruct exit as [v'|[e|]]; [|discriminate..].
    intros H. inversion H; subst v'. destruct Hexit as [Hlt Hv].
    exists (n - 1)%nat. split; [lia|]. split; [exact Hv|]. split.
    + intros j Hj. apply Hbefore; lia.
    + lia.
  - intros [k [Hk [Hv [Hfail Hcalls]]]].
    destruct (retryLoop_skips (ErrorHandler.mergeRetryConfig retryConfig)
                operation k
                (maxAttempts (ErrorHandler.mergeRetryConfig retryConfig))
                0 None (Nat.add_0_r _) Hk Hfail)
      as [lastError' [waited [_ Hrun]]].
    cbn [Nat.add] in Hrun.
    destruct (maxAttempts (ErrorHandler.mergeRetryConfig retryConfig) - k)%nat
      as [|r] eqn:Hr; [lia|].
    cbn [ErrorHandler.retryLoop] in Hrun. rewrite Hv in Hrun.
    rewrite (handleError_by_exit operation errorContext retryConfig
                                 fallbackOptions _ _ _ Hrun).
    reflexivity.
Qed.

Lemma handle_error_resolves_iff_a_call_resolves_witness :
  outcome (ErrorHandler.handleError thirdTimeLucky "Test operation"
                                    noRetryOverrides noFallbackOverrides)
  = Resolved "success".
Proof.
  apply (proj2 (handle_error_resolves_iff_a_call_resolves
                  thirdTimeLucky "Test operation" noRetryOverrides
                  noFallbackOverrides "success")).
  exists 2%nat. split; [vm_compute; lia|]. split; [reflexivity|]. split.
  - intros j Hj. exists "Screenshot capture failed".
    destruct j as [|[|j]]; [split; reflexivity..|lia].
  - reflexivity.
Defined.



(** X23.  An error that is not classified as retryable ends the retries
    at once: when the calls before the [k]-th fail with retryable errors
    and the [k]-th, within the attempts allowed, fails with one that is
    not, the operation is called [k + 1] times, [k] delays are waited, and
    the canned message of the class is thrown without the notice of the
    fallbacks. *)
Theorem non_retryable_error_ends_retries
        {T : Type} (operation : nat -> Result T) (errorContext : string)
        (retryConfig : PartialRetryConfig)
        (fallbackOptions : PartialFallbackOptions)
        (k : nat) (lastError : string) :
  let config := ErrorHandler.mergeRetryConfig retryConfig in
  let run := ErrorHandler.handleError operation errorContext retryConfig
                                      fallbackOptions in
  (k < maxAttempts config)%nat ->
  failsRetryablyBefore operation k ->
  operation k = Rejected lastError ->
  retryable (ErrorHandler.ERROR_DEFINITIONS
               (ErrorHandler.classifyError lastError)) = false ->
  calls run = S k /\
  List.length (delays run) = k /\
  outcome run
  = Rejected (chineseMessage
                (ErrorHandler.ERROR_DEFINITIONS
                   (ErrorHandler.classifyError lastError))).
Proof.
  cbv zeta. intros Hk Hfail Hop Hretry.
  destruct (retryLoop_skips (ErrorHandler.mergeRetryConfig retryConfig)
              operation k
              (maxAttempts (ErrorHandler.mergeRetryConfig retryConfig))
              0 None (Nat.add_0_r _) Hk Hfail)
    as [lastError' [waited [Hlen Hrun]]].
  cbn [Nat.add] in Hrun.
  destruct (maxAttempts (ErrorHandler.mergeRetryConfig retryConfig) - k)%nat
    as [|r] eqn:Hr; [lia|].
  cbn [ErrorHandler.retryLoop] in Hrun. rewrite Hop in Hrun.
  cbv zeta in Hrun.
  change (retryable (ErrorHandler.createErrorInfo
                       (ErrorHandler.classifyError lastError) None))
    with (retryable (ErrorHandler.ERROR_DEFINITIONS
                       (ErrorHandler.classifyError lastError))) in Hrun.
  rewrite Hretry in Hrun. cbn [negb orb] in Hrun.
  rewrite (handleError_by_exit operation errorContext retryConfig
                               fallbackOptions _ _ _ Hrun).
  cbn [outcome calls delays].
  split; [reflexivity|]. split; [rewrite app_nil_r; exact Hlen|].
  unfold rejectionFor.
  destruct (ErrorHandler.classifyError lastError);
    try discriminate Hretry; reflexivity.
Qed.

Lemma non_retryable_error_ends_retries_witness :
  calls (ErrorHandler.handleError thenElementMissing "Test operation"
                                  noRetryOverrides noFallbackOverrides)
  = 2%nat.
Proof.
  refine (proj1 (non_retryable_error_ends_retries
                   thenElementMissing "Test operation" noRetryOverrides
                   noFallbackOverrides 1 "Element not found: #target"
                   _ _ _ _)).
  - vm_compute. lia.
  - intros j Hj. exists "Screenshot capture failed".
    destruct j as [|j]; [split; reflexivity|lia].
  - reflexivity.
  - vm_compute. reflexivity.
Defined.

(** X24.  [handleError] reads neither the list [retryableErrors] of its
    configuration nor its fallback options: with another list and other
    options it makes the same calls, waits the same delays and settles the
    same way. *)
Theorem handle_error_ignores_error_list_and_fallback_options
        {T : Type} (operation : nat -> Result T) (errorContext : string)
        (retryConfig : PartialRetryConfig)
        (fallbackOptions fallbackOptions' : PartialFallbackOptions)
        (errors : option (list ScreenshotError)) :
  ErrorHandler.handleError
    operation errorContext
    (mkPartialRetryConfig (opt_maxAttempts retryConfig)
                          (opt_delayMs retryConfig)
                          (opt_backoffMultiplier retryConfig) errors)
    fallbackOptions'
  = ErrorHandler.handleError operation errorContext retryConfig
                             fallbackOptions.
Proof.
  set (config := ErrorHandler.mergeRetryConfig retryConfig).
  set (rc' := mkPartialRetryConfig _ _ _ errors).
  destruct (ErrorHandler.retryLoop config operation (maxAttempts config) 0 None)
    as [[exit n] waited] eqn:Hloop.
  rewrite (handleError_by_exit operation errorContext retryConfig
                               fallbackOptions _ _ _ Hloop).
  apply handleError_by_exit.
  rewrite <- Hloop.
  change (maxAttempts (ErrorHandler.mergeRetryConfig rc'))
    with (maxAttempts config).
  change (ErrorHandler.mergeRetryConfig rc')
    with (mkRetryConfig (maxAttempts config) (delayMs config)
                        (backoffMultiplier config)
                        (retryableErrors (ErrorHandler.mergeRetryConfig rc'))).
  apply retryLoop_ignores_retryableErrors.
Qed.

(** X25.  After [handleError] with at least one attempt allowed, the
    [catch] of the background script classifies whatever was thrown as a
    processing error, whatever the class of the error of the operation
    was: the message shown to the user is that of a processing error,
    which announces a retry, and a rejection of a nested [handleError] is
    retryable for the enclosing one. *)
Theorem final_message_is_that_of_a_processing_error
        {T : Type} (operation : nat -> Result T) (errorContext : string)
        (retryConfig : PartialRetryConfig)
        (fallbackOptions : PartialFallbackOptions) (msg : string) :
  let config := ErrorHandler.mergeRetryConfig retryConfig in
  let run := ErrorHandler.handleError operation errorContext retryConfig
                                      fallbackOptions in
  (0 < maxAttempts config)%nat ->
  outcome run = Rejected msg ->
  ErrorHandler.classifyError msg = PROCESSING_ERROR /\
  retryable (ErrorHandler.ERROR_DEFINITIONS (ErrorHandler.classifyError msg))
  = true /\
  Background.finalUserMessage msg
  = ErrorHandler.createUserMessage
      (ErrorHandler.ERROR_DEFINITIONS PROCESSING_ERROR).
Proof.
  cbv zeta. intros Hmax Hout.
  assert (Hclass : ErrorHandler.classifyError msg = PROCESSING_ERROR).
  { destruct (handleError_rejected operation errorContext retryConfig
                                   fallbackOptions msg Hout)
      as [[Hzero _]|[lastError [_ [_ [_ ->]]]]]; [lia|].
    unfold rejectionFor.
    destruct (ErrorHandler.classifyError lastError);
      vm_compute; reflexivity. }
  unfold Background.finalUserMessage. rewrite Hclass.
  repeat split; reflexivity.
Qed.

Lemma final_message_is_that_of_a_processing_error_witness :
  Background.finalUserMessage "頁面上找不到指定的元素"
  = ErrorHandler.createUserMessage
      (ErrorHandler.ERROR_DEFINITIONS PROCESSING_ERROR).
Proof.
  refine (proj2 (proj2 (final_message_is_that_of_a_processing_error
                          (alwaysFails "Element not found") "Test operation"
                          (mkPartialRetryConfig (Some 3%nat) (Some 10)
                                                None None)
                          noFallbackOverrides "頁面上找不到指定的元素"
                          _ _))).
  - vm_compute. lia.
  - vm_compute. reflexivity.
Defined.

(** ** File names *)

Lemma endsWith_refl s : endsWith s s = true.
Proof. destruct s; cbn [endsWith]; rewrite String.eqb_refl; reflexivity. Qed.

Lemma endsWith_app s suffix : endsWith (s ++ suffix) suffix = true.
Proof.
  induction s as [|c s IH].
  - apply endsWith_refl.
  - cbn [append endsWith]. rewrite IH. apply orb_true_r.
Qed.

(** Replacing a pattern that does not occur changes nothing. *)
Lemma replaceFirst_absent pattern replacement s :
  includes s pattern = false -> replaceFirst pattern replacement s = s.
Proof.
  induction s as [|c s IH]; intros Habsent.
  - change (includes "" pattern) with (prefix pattern "") in Habsent.
    cbn [replaceFirst]. rewrite Habsent. reflexivity.
  - change (includes (String c s) pattern)
      with (prefix pattern (String c s) || includes s pattern) in Habsent.
    apply orb_false_iff in Habsent. destruct Habsent as [Hhere Hrest].
    cbn [replaceFirst]. rewrite Hhere, (IH Hrest). reflexivity.
Qed.

Lemma substitutePlaceholders_plain now template format :
  noPlaceholder template = true ->
  ScreenshotProcessor.substitutePlaceholders now template format = template.
Proof.
  unfold noPlaceholder. rewrite !andb_true_iff, !negb_true_iff.
  intros [[[Hts Hd] Ht] Hf].
  unfold ScreenshotProcessor.substitutePlaceholders. cbv zeta.
  rewrite (replaceFirst_absent "{timestamp}" _ _ Hts).
  rewrite (replaceFirst_absent "{date}" _ _ Hd).
  rewrite (replaceFirst_absent "{time}" _ _ Ht).
  apply replaceFirst_absent. exact Hf.
Qed.

Lemma generateFilename_has_extension now template format :
  endsWith (ScreenshotProcessor.generateFilename now template format)
           ("." ++ ScreenshotProcessor.extensionOf format) = true.
Proof.
  unfold ScreenshotProcessor.generateFilename. cbv zeta.
  destruct (endsWith (ScreenshotProcessor.substitutePlaceholders
                        now template format)
                     ("." ++ ScreenshotProcessor.extensionOf format)) eqn:E;
    cbn [negb].
  - exact E.
  - apply endsWith_app.
Qed.

Lemma generateFilename_plain now template format :
  noPlaceholder template = true ->
  ScreenshotProcessor.generateFilename now template format
  = if endsWith template ("." ++ ScreenshotProcessor.extensionOf format)
    then template
    else template ++ "." ++ ScreenshotProcessor.extensionOf format.
Proof.
  intros Hplain. unfold ScreenshotProcessor.generateFilename. cbv zeta.
  rewrite (substitutePlaceholders_plain now template format Hplain).
  destruct (endsWith template _); reflexivity.
Qed.

(** X26.  Whatever the template and the clock are, the generated file name
    ends with the extension of the format: [.jpg] for JPEG, [.png] for
    PNG. *)
Theorem generated_filename_ends_with_extension
        (now : Clock) (template : string) (format : ImageFormat) :
  endsWith (ScreenshotProcessor.generateFilename now template format)
           (match format with jpeg => ".jpg" | png => ".png" end) = true.
Proof.
  pose proof (generateFilename_has_extension now template format) as H.
  destruct format; exact H.
Qed.

(** X27.  A template with none of the four placeholders does not depend on
    the clock: it is returned as it is when it ends with the extension of
    the format, and with the extension appended otherwise. *)
Theorem plain_template_ignores_clock
        (now : Clock) (template : string) (format : ImageFormat) :
  noPlaceholder template = true ->
  ScreenshotProcessor.generateFilename now template format
  = if endsWith template ("." ++ ScreenshotProcessor.extensionOf format)
    then template
    else template ++ "." ++ ScreenshotProcessor.extensionOf format.
Proof.
  intros Hplain. unfold ScreenshotProcessor.generateFilename. cbv zeta.
  rewrite (substitutePlaceholders_plain now template format Hplain).
  destruct (endsWith template _); reflexivity.
Qed.

Lemma plain_template_ignores_clock_witness :
  ScreenshotProcessor.generateFilename sampleClock "element.PNG" png
  = "element.PNG.png".
Proof.
  exact (plain_template_ignores_clock sampleClock "element.PNG" png eq_refl).
Defined.

(** X28.  The background script generates the file name twice, from the
    template of the settings when the element is selected and from the
    result when the screenshot is saved.  When the first name has no
    placeholder left, the second generation returns it unchanged, whatever
    the time is then. *)
Theorem generated_filename_is_stable
        (now later : Clock) (template : string) (format : ImageFormat) :
  noPlaceholder (ScreenshotProcessor.generateFilename now template format)
  = true ->
  ScreenshotProcessor.generateFilename
    later (ScreenshotProcessor.generateFilename now template format) format
  = ScreenshotProcessor.generateFilename now template format.
Proof.
  intros Hplain. rewrite (generateFilename_plain later _ format Hplain).
  rewrite generateFilename_has_extension. reflexivity.
Qed.

Lemma generated_filename_is_stable_witness :
  ScreenshotProcessor.generateFilename
    laterClock
    (ScreenshotProcessor.generateFilename
       sampleClock "element-{date}-{time}" jpeg) jpeg
  = "element-2026-11-01-09-30-15.jpg".
Proof.
  rewrite (generated_filename_is_stable
             sampleClock laterClock "element-{date}-{time}" jpeg);
    vm_compute; reflexivity.
Defined.

(** ** Failures of the processor under [handleError] *)

(** When every call allowed fails with a retryable error, [handleError]
    makes them all and throws for the last. *)
Lemma handleError_exhausted {T} (operation : nat -> Result T) ctx rc fo :
  let config := ErrorHandler.mergeRetryConfig rc in
  let run := ErrorHandler.handleError operation ctx rc fo in
  (0 < maxAttempts config)%nat ->
  failsRetryablyBefore operation (maxAttempts config) ->
  calls run = maxAttempts config /\
  List.length (delays run) = (maxAttempts config - 1)%nat /\
  exists lastError,
    operation (maxAttempts config - 1)%nat = Rejected lastError /\
    outcome run = Rejected (rejectionFor lastError).
Proof.
  cbv zeta. intros Hmax Hfail.
  set (config := ErrorHandler.mergeRetryConfig rc) in *.
  destruct (retryLoop_skips config operation (maxAttempts config - 1)
              (maxAttempts config) 0 None (Nat.add_0_r _) ltac:(lia))
    as [lastError' [waited [Hlen Hrun]]].
  { intros j Hj. apply Hfail. lia. }
  cbn [Nat.add] in Hrun.
  replace (maxAttempts config - (maxAttempts config - 1))%nat with 1%nat
    in Hrun by lia.
  destruct (Hfail (maxAttempts config - 1)%nat ltac:(lia))
    as [m [Hop Hretry]].
  cbn [ErrorHandler.retryLoop] in Hrun. rewrite Hop in Hrun.
  cbv zeta in Hrun.
  change (retryable (ErrorHandler.createErrorInfo
                       (ErrorHandler.classifyError m) None))
    with (retryable (ErrorHandler.ERROR_DEFINITIONS
                       (ErrorHandler.classifyError m))) in Hrun.
  rewrite Hretry in Hrun. cbn [negb orb] in Hrun.
  destruct (Nat.leb_spec (maxAttempts config) (S (maxAttempts config - 1)))
    as [_|Hlt]; [|lia].
  rewrite (handleError_by_exit operation ctx rc fo _ _ _ Hrun).
  cbn [outcome calls delays].
  split; [lia|]. split; [rewrite app_nil_r; exact Hlen|].
  exists m. split; [exact Hop|reflexivity].
Qed.

Lemma cropToElement_rejection host url e dpr m :
  ScreenshotProcessor.cropToElement host url e dpr = Rejected m ->
  m = "Screenshot cropping failed: Failed to get canvas context" \/
  m = "Screenshot cropping failed: Failed to load image".
Proof.
  unfold ScreenshotProcessor.cropToElement.
  destruct (hasContext2d host); cbn [negb].
  - destruct (loadImage host url); cbn [rethrow]; [discriminate|].
    intros H. inversion H. right. reflexivity.
  - cbn [rethrow]. intros H. inversion H. left. reflexivity.
Qed.

(** X29.  The classes of what the processor throws.  Every rejection of
    [cropToElement], and every rejection of [stitchScreenshotSegments] for
    segments that are all there, is classified as a capture failure,
    because of the word "Screenshot" in the prefix; every rejection of
    [convertFormat] is classified as a processing error.  All of them are
    retryable. *)
Theorem processor_rejections_are_retryable
        (host : Host) (url : string) (e : ElementInfo) (dpr : Q)
        (segments : list LongScreenshotSegment)
        (options : ScreenshotOptions) (m : string) :
  (ScreenshotProcessor.cropToElement host url e dpr = Rejected m ->
   ErrorHandler.classifyError m = CAPTURE_FAILED) /\
  (ScreenshotProcessor.stitchScreenshotSegments host segments e dpr
   = Rejected m ->
   ErrorHandler.classifyError m = CAPTURE_FAILED) /\
  (ScreenshotProcessor.convertFormat host url options = Rejected m ->
   ErrorHandler.classifyError m = PROCESSING_ERROR).
Proof.
  split; [|split].
  - intros H. destruct (cropToElement_rejection _ _ _ _ _ H) as [->| ->];
      vm_compute; reflexivity.
  - unfold ScreenshotProcessor.stitchScreenshotSegments.
    destruct segments as [|s1 [|s2 rest]].
    + intros H. inversion H. vm_compute. reflexivity.
    + intros H. destruct (cropToElement_rejection _ _ _ _ _ H) as [->| ->];
        vm_compute; reflexivity.
    + set (segs := s1 :: s2 :: rest).
      destruct (hasContext2d host); cbn [negb].
      * pose proof (stitchLoop_outcomes host segs
                      (width (boundingRect e) * dpr) dpr segs 0 0
                      (fun k _ => eq_refl)) as Hloop.
        destruct (ScreenshotProcessor.stitchLoop host segs
                    (width (boundingRect e) * dpr) dpr 0 segs 0)
          as [[ops finalY]|m0]; cbn [rethrow]; [discriminate|].
        destruct Hloop as [_ ->]. intros H. inversion H.
        vm_compute. reflexivity.
      * cbn [rethrow]. intros H. inversion H. vm_compute. reflexivity.
  - unfold ScreenshotProcessor.convertFormat.
    destruct (hasContext2d host); cbn [negb].
    + destruct (loadImage host url); [discriminate|].
      intros H. inversion H. vm_compute. reflexivity.
    + intros H. inversion H. vm_compute. reflexivity.
Qed.

Lemma processor_rejections_are_retryable_witness :
  ErrorHandler.classifyError "Screenshot cropping failed: Failed to load image"
  = CAPTURE_FAILED.
Proof.
  exact (proj1 (processor_rejections_are_retryable
                  brokenImageHost shot testElement 2 []
                  (mkOptions png 1 "element.png")
                  "Screenshot cropping failed: Failed to load image")
               eq_refl).
Defined.

(** X30.  Cropping under [handleError], as the background script runs it:
    when [cropToElement] fails on a screenshot, every attempt allowed is
    made, with a delay between two attempts, and what is thrown in the end
    is the notice of the fallbacks with the message of a capture failure,
    not the message of [cropToElement]. *)
Theorem failed_cropping_is_retried_to_the_limit
        (host : Host) (url : string) (e : ElementInfo) (dpr : Q)
        (errorContext : string) (retryConfig : PartialRetryConfig)
        (fallbackOptions : PartialFallbackOptions) (m : string) :
  let config := ErrorHandler.mergeRetryConfig retryConfig in
  let run :=
    ErrorHandler.handleError
      (fun _ => ScreenshotProcessor.cropToElement host url e dpr)
      errorContext retryConfig fallbackOptions in
  (0 < maxAttempts config)%nat ->
  ScreenshotProcessor.cropToElement host url e dpr = Rejected m ->
  calls run = maxAttempts config /\
  List.length (delays run) = (maxAttempts config - 1)%nat /\
  outcome run
  = Rejected ("All fallback strategies failed for error: "
              ++ chineseMessage (ErrorHandler.ERROR_DEFINITIONS CAPTURE_FAILED)).
Proof.
  cbv zeta. intros Hmax Hcrop.
  assert (Hclass : ErrorHandler.classifyError m = CAPTURE_FAILED).
  { destruct (cropToElement_rejection _ _ _ _ _ Hcrop) as [->| ->];
      vm_compute; reflexivity. }
  destruct (handleError_exhausted
              (fun _ : nat => ScreenshotProcessor.cropToElement host url e dpr)
              errorContext retryConfig fallbackOptions Hmax)
    as [Hcalls [Hdelays [lastError [Hop Hout]]]].
  { intros j _. exists m. split; [exact Hcrop|]. rewrite Hclass. reflexivity. }
  split; [exact Hcalls|]. split; [exact Hdelays|].
  rewrite Hout. rewrite Hcrop in Hop. inversion Hop; subst lastError.
  unfold rejectionFor. rewrite Hclass. reflexivity.
Qed.

Lemma failed_cropping_is_retried_to_the_limit_witness :
  calls (ErrorHandler.handleError
           (fun _ => ScreenshotProcessor.cropToElement
                       brokenImageHost shot testElement 2)
           "Element cropping"
           (mkPartialRetryConfig (Some 2%nat) (Some 300) None None)
           noFallbackOverrides)
  = 2%nat.
Proof.
  refine (proj1 (failed_cropping_is_retried_to_the_limit
                   brokenImageHost shot testElement 2 "Element cropping"
                   (mkPartialRetryConfig (Some 2%nat) (Some 300) None None)
                   noFallbackOverrides
                   "Screenshot cropping failed: Failed to load image" _ _)).
  - vm_compute. lia.
  - reflexivity.
Defined.
